(** * main.py: the resume-screening chatbot client

    A shallow embedding of [handle_user_message], [build_agent] and [main]
    of main.py, and the properties of the turn handler and of the session
    loop that follow from the code.

    Conventions of the embedding.
    - A Python [str] is the list of its code points ([len] is the length of
      the list, [s[:n]] is [firstn n s], [+] is [++]).
    - Console, keyboard and the external collaborators (the tool-providing
      endpoint, the agent, the model backend behind it) are reached through
      a state-and-exception monad; every interaction is appended to a trace
      in the order in which the code performs it.
    - The agent framework is opaque: its classes and coroutines are the
      fields of the class [Externals]. *)

From Stdlib Require Import List NArith Arith Bool Lia String Ascii DecimalString.
Import ListNotations.

Set Implicit Arguments.

(* ================================================================== *)
(** ** Python strings *)

Definition pystr := list N.

(** An ASCII literal of the source, as a Python string. *)
Definition lit (s : string) : pystr :=
  map N_of_ascii (list_ascii_of_string s).

Definition NL : pystr := [10%N].

Definition pystr_eqb (a b : pystr) : bool :=
  if list_eq_dec N.eq_dec a b then true else false.

(** [str(n)] for a non-negative [int]. *)
Definition str_of_nat (n : nat) : pystr :=
  lit (NilZero.string_of_uint (Nat.to_uint n)).

(** [needle in haystack] on strings. *)
Fixpoint starts_with (p s : pystr) : bool :=
  match p, s with
  | [], _ => true
  | _ :: _, [] => false
  | a :: p', b :: s' => N.eqb a b && starts_with p' s'
  end.

Fixpoint contains (needle hay : pystr) : bool :=
  starts_with needle hay
  || match hay with
     | [] => false
     | _ :: hay' => contains needle hay'
     end.

(* ================================================================== *)
(** ** Exceptions *)

(** The part of Python's exception hierarchy that the [except] clauses of
    main.py tell apart.  [OtherException] stands for every subclass of
    [Exception] not named here, [OtherBaseException] for the subclasses of
    [BaseException] outside [Exception] other than [KeyboardInterrupt]
    (asyncio's [CancelledError], [SystemExit], [GeneratorExit]). *)
Inductive ExcClass : Type :=
| EOFError
| KeyboardInterrupt
| NameError
| OtherException
| OtherBaseException.

Record Exc : Type := mkExc { exc_class : ExcClass; exc_str : pystr }.

(** [isinstance(e, Exception)] *)
Definition isinstance_Exception (e : Exc) : bool :=
  match exc_class e with
  | KeyboardInterrupt | OtherBaseException => false
  | EOFError | NameError | OtherException => true
  end.

(** [isinstance(e, (EOFError, KeyboardInterrupt))] *)
Definition isinstance_EOF_or_Interrupt (e : Exc) : bool :=
  match exc_class e with
  | EOFError | KeyboardInterrupt => true
  | _ => false
  end.

(* ================================================================== *)
(** ** Progress events and run handlers *)

(** The events of [handler.stream_events()].  The three classes tested by
    [isinstance] in [handle_user_message] are unrelated subclasses of the
    framework's [Event]; the stream also carries events of other classes. *)
Inductive Event (K O : Type) : Type :=
| ToolCall (tool_name : pystr) (tool_kwargs : K)
| AgentStream (delta : pystr)
| ToolCallResult (tool_name : pystr) (tool_output : O)
| OtherEvent.

Arguments ToolCall {K O} tool_name tool_kwargs.
Arguments AgentStream {K O} delta.
Arguments ToolCallResult {K O} tool_name tool_output.
Arguments OtherEvent {K O}.

(** What [agent.run(...)] hands back: a finite event stream, which ends
    either normally or by raising, and the deferred final answer. *)
Record Handler (K O A : Type) : Type := mkHandler {
  h_events : list (Event K O);
  h_stream_error : option Exc;
  h_result : Exc + A
}.

(** What happens at the keyboard while [input] waits: a line is entered,
    or the interrupt key is pressed (SIGINT); an exhausted keyboard is
    end-of-input, which [input] raises as [EOFError].  What an interrupt
    does to [input] depends on the runtime, see [sigint_cancels_task]. *)
Inductive Keyboard : Type :=
| Line (s : pystr)
| CtrlC.

(* ================================================================== *)
(** ** The external collaborators *)

Record BasicMCPClient : Type := mkBasicMCPClient {
  command_or_url : pystr;
  args : list pystr;
  timeout : nat
}.

Record McpToolSpec : Type := mkMcpToolSpec { client : BasicMCPClient }.

Class Externals : Type := {
  Kwargs : Type;
  ToolOutput : Type;
  Answer : Type;
  Tool : Type;
  Agent : Type;
  Context : Type;
  (** the mutable state behind the collaborators: conversation memory,
      model backend, tool server *)
  Mem : Type;
  (** [str] of a [dict] of tool arguments, of a tool output, of the final
      answer *)
  str_kwargs : Kwargs -> pystr;
  str_tool_output : ToolOutput -> pystr;
  str_answer : Answer -> pystr;
  (** [str.lower] on strings that are not pure ASCII *)
  unicode_lower : pystr -> pystr;
  (** Line 135 runs [main] as the main task of [asyncio.run].  From Python
      3.11 on, [asyncio.run] installs its own SIGINT handler for the time
      of the run ([true]): the first interrupt cancels the main task and
      the handler returns, every later one raises [KeyboardInterrupt].
      Before 3.11 ([false]) the default handler stays and every interrupt
      raises [KeyboardInterrupt] where the main thread is.  What
      [asyncio.run] does once [main] has returned or raised is outside
      [main] and is not part of the model. *)
  sigint_cancels_task : bool;
  (** [await mcp_toolspec.to_tool_list_async()] *)
  to_tool_list_async : McpToolSpec -> Mem -> (Exc + list Tool) * Mem;
  (** [ReActAgent(name=..., description=..., tools=tools, llm=llm,
      system_prompt=..., verbose=True)] *)
  ReActAgent : list Tool -> pystr -> Agent;
  (** [Context(agent)] *)
  Context_new : Agent -> Mem -> Context * Mem;
  (** [agent.run(message_content, ctx=agent_context)] *)
  agent_run :
    Agent -> pystr -> Context -> Mem ->
    (Exc + Handler Kwargs ToolOutput Answer) * Mem
}.

Section Model.

Context {Ext : Externals}.

Definition Ev : Type := Event Kwargs ToolOutput.
Definition Run : Type := Handler Kwargs ToolOutput Answer.

(* ------------------------------------------------------------------ *)
(** *** The world and the monad *)

Inductive Effect : Type :=
| Stdout (s : pystr)                (* text written to the console *)
| Stdin (k : option Keyboard)       (* one [input]; [None] is end-of-input *)
| FetchTools (spec : McpToolSpec)   (* [to_tool_list_async] awaited *)
| NewContext (c : Context)          (* [Context(agent)] *)
| AgentRun (msg : pystr) (c : Context)  (* [agent.run] *)
| StreamNext (e : option Ev)        (* one step of the event iterator *)
| AwaitResult.                      (* [await handler] *)

Record World : Type := mkWorld {
  stdin : list Keyboard;
  memory : Mem;
  trace : list Effect
}.

Definition log (e : Effect) (w : World) : World :=
  mkWorld (stdin w) (memory w) (trace w ++ [e]).

Definition set_memory (m : Mem) (w : World) : World :=
  mkWorld (stdin w) m (trace w).

Definition set_stdin (k : list Keyboard) (w : World) : World :=
  mkWorld k (memory w) (trace w).

(** [Diverged] is the result of a loop that was given too little fuel. *)
Inductive Outcome (A : Type) : Type :=
| Returned (a : A)
| Raised (e : Exc)
| Diverged.

Arguments Raised {A} e.
Arguments Diverged {A}.

Definition M (A : Type) : Type := World -> Outcome A * World.

Definition ret {A} (a : A) : M A := fun w => (Returned a, w).

Definition bind {A B} (c : M A) (k : A -> M B) : M B :=
  fun w =>
    match c w with
    | (Returned a, w') => k a w'
    | (Raised e, w') => (Raised e, w')
    | (Diverged, w') => (Diverged, w')
    end.

Definition raise {A} (e : Exc) : M A := fun w => (Raised e, w).

(** [try: c  except BaseException as e: h e]; each handler re-raises what
    its [except] clauses do not match. *)
Definition try_except {A} (c : M A) (h : Exc -> M A) : M A :=
  fun w =>
    match c w with
    | (Raised e, w') => h e w'
    | r => r
    end.

Definition effect (e : Effect) : M unit := fun w => (Returned tt, log e w).

Notation "x <- c1 ;; c2" := (bind c1 (fun x => c2))
  (at level 61, c1 at next level, right associativity).
Notation "c1 ;; c2" := (bind c1 (fun _ => c2))
  (at level 61, right associativity).

(** The text printed so far. *)
Fixpoint printed (t : list Effect) : pystr :=
  match t with
  | [] => []
  | Stdout s :: t' => s ++ printed t'
  | _ :: t' => printed t'
  end.

(* ------------------------------------------------------------------ *)
(** *** Builtins *)

(** [print(s)] *)
Definition print (s : pystr) : M unit := effect (Stdout (s ++ NL)).

(** [print(s, end=e, flush=True)] *)
Definition print_end (s e : pystr) : M unit := effect (Stdout (s ++ e)).

(** An interrupt taken at the prompt. *)
Definition is_sigint (e : Effect) : bool :=
  match e with
  | Stdin (Some CtrlC) => true
  | _ => false
  end.

(** The blocking read of [input], with the keyboard [keys] ahead.  An
    interrupt runs the SIGINT handler in the main thread, inside the read.
    When the handler raises, [input] raises [KeyboardInterrupt].  When it
    is the handler of [asyncio.run] and this is the first interrupt of the
    run, it requests the cancellation of the main task and returns; the
    read is then taken up again and [input] keeps waiting.  The
    cancellation itself reaches the coroutine only where it next suspends,
    in an await of the collaborators, which then raises [CancelledError]
    (an [OtherBaseException] of a stream, a result or a fetch). *)
Fixpoint wait_for_line (keys : list Keyboard) (w : World)
  : Outcome pystr * World :=
  match keys with
  | [] =>
      (Raised (mkExc EOFError (lit "EOF when reading a line")),
       log (Stdin None) w)
  | CtrlC :: rest =>
      let w' := log (Stdin (Some CtrlC)) (set_stdin rest w) in
      if sigint_cancels_task && negb (existsb is_sigint (trace w))
      then wait_for_line rest w'
      else (Raised (mkExc KeyboardInterrupt []), w')
  | Line s :: rest =>
      (Returned s, log (Stdin (Some (Line s))) (set_stdin rest w))
  end.

(** [input(prompt)] *)
Definition input (prompt : pystr) : M pystr :=
  effect (Stdout prompt) ;;
  fun w => wait_for_line (stdin w) w.

Definition is_ascii (c : N) : bool := (c <? 128)%N.

Definition ascii_lower (c : N) : N :=
  if ((65 <=? c) && (c <=? 90))%N then (c + 32)%N else c.

(** [s.lower()] *)
Definition str_lower (s : pystr) : pystr :=
  if forallb is_ascii s then map ascii_lower s else unicode_lower s.

(** The module-level names of main.py that are bound to a string.  Every
    other module-level name (the imports, [llm], the three coroutines) is
    bound to an object of another type.  The only assignment to
    [mcp_server_url], on line 100, is commented out. *)
Definition SYSTEM_PROMPT : pystr :=
  lit "You are an expert resume screening assistant. You help HR managers and recruiters by analyzing resumes," ++ NL ++
  lit "extracting key information like skills, experience, and education, and evaluating them against job descriptions." ++ NL ++
  lit "Use the provided browser tools to navigate to resumes (e.g., from a URL), extract relevant data," ++ NL ++
  lit "and answer questions about candidates to determine their suitability for a role." ++ NL.

Definition module_str_globals : list (string * pystr) :=
  [ ("__name__"%string, lit "__main__");
    ("SYSTEM_PROMPT"%string, SYSTEM_PROMPT) ].

(** Reading a global name inside an f-string. *)
Definition load_global (x : string) : M pystr :=
  match find (fun p => String.eqb (fst p) x) module_str_globals with
  | Some p => ret (snd p)
  | None =>
      raise (mkExc NameError (lit "name '" ++ lit x ++ lit "' is not defined"))
  end.

(* ------------------------------------------------------------------ *)
(** *** 1. Utility helpers: [handle_user_message] *)

(** Lines 61-63. *)
Definition shorten (tool_output_str : pystr) : pystr :=
  if 250 <? List.length tool_output_str
  then firstn 250 tool_output_str ++ lit "..."
  else tool_output_str.

(** The f-string of line 56. *)
Definition tool_call_line (tool_name : pystr) (tool_kwargs : Kwargs) : pystr :=
  NL ++ [0x1F527%N] ++ lit " Calling tool '" ++ tool_name
  ++ lit "' with " ++ str_kwargs tool_kwargs.

(** The f-string of line 64. *)
Definition tool_result_line (tool_name tool_output_str : pystr) : pystr :=
  [0x2705%N] ++ lit " Tool '" ++ tool_name ++ lit "' returned: "
  ++ tool_output_str.

(** The body of the [async for], lines 54-64: an [if], then an
    [if]/[elif]. *)
Definition handle_event (verbose : bool) (event : Ev) : M unit :=
  match event with
  | ToolCall tool_name tool_kwargs =>
      if verbose
      then print (tool_call_line tool_name tool_kwargs)
      else ret tt
  | _ => ret tt
  end ;;
  match event with
  | AgentStream delta => print_end delta []
  | ToolCallResult tool_name tool_output =>
      if verbose
      then
        let tool_output_str := shorten (str_tool_output tool_output) in
        print (tool_result_line tool_name tool_output_str)
      else ret tt
  | _ => ret tt
  end.

(** [async for event in handler.stream_events(): ...] *)
Fixpoint stream_events (verbose : bool) (events : list Ev)
    (stream_error : option Exc) : M unit :=
  match events with
  | event :: rest =>
      effect (StreamNext (Some event)) ;;
      handle_event verbose event ;;
      stream_events verbose rest stream_error
  | [] =>
      match stream_error with
      | Some e => raise e
      | None => effect (StreamNext None)
      end
  end.

(** [agent.run(message_content, ctx=agent_context)] *)
Definition run (agent : Agent) (message_content : pystr)
    (agent_context : Context) : M Run :=
  fun w =>
    let w1 := log (AgentRun message_content agent_context) w in
    match agent_run agent message_content agent_context (memory w1) with
    | (inl e, m) => (Raised e, set_memory m w1)
    | (inr h, m) => (Returned h, set_memory m w1)
    end.

(** [await handler] *)
Definition await_handler (handler : Run) : M Answer :=
  effect AwaitResult ;;
  match h_result handler with
  | inl e => raise e
  | inr answer => ret answer
  end.

Definition handle_user_message (message_content : pystr) (agent : Agent)
    (agent_context : Context) (verbose : bool) : M pystr :=
  handler <- run agent message_content agent_context ;;
  stream_events verbose (h_events handler) (h_stream_error handler) ;;
  answer <- await_handler handler ;;
  ret (str_answer answer).

(* ------------------------------------------------------------------ *)
(** *** [build_agent] *)

(** [await mcp_toolspec.to_tool_list_async()] *)
Definition to_tool_list (mcp_toolspec : McpToolSpec) : M (list Tool) :=
  fun w =>
    let w1 := log (FetchTools mcp_toolspec) w in
    match to_tool_list_async mcp_toolspec (memory w1) with
    | (inl e, m) => (Raised e, set_memory m w1)
    | (inr tools, m) => (Returned tools, set_memory m w1)
    end.

Definition build_agent (mcp_url : pystr) (args : list pystr) : M Agent :=
  let mcp_client := mkBasicMCPClient mcp_url args 30 in
  let mcp_toolspec := mkMcpToolSpec mcp_client in
  print (lit "Connecting to MCP server at " ++ mcp_url
         ++ lit " and fetching tools...") ;;
  tools <- to_tool_list mcp_toolspec ;;
  print ([0x2705%N] ++ lit " Successfully fetched "
         ++ str_of_nat (List.length tools) ++ lit " tools.") ;;
  ret (ReActAgent tools SYSTEM_PROMPT).

(* ------------------------------------------------------------------ *)
(** *** 2. Main event loop: [main] *)

(** [Context(agent)] *)
Definition new_context (agent : Agent) : M Context :=
  fun w =>
    let (c, m) := Context_new agent (memory w) in
    (Returned c, log (NewContext c) (set_memory m w)).

(** How one pass through the body of [while True] ends. *)
Inductive Flow : Type :=
| NextIteration
| Break.

Definition server_command : pystr := lit "uv".

Definition server_args : list pystr :=
  [ lit "--directory";
    lit "/Users/akashmaggon/Desktop/Projects/Accelarators/Resume Screening Project/Client/mcp-client-llamaindex/mcp_resume_screening";
    lit "run";
    lit "server.py" ].

(** Lines 101-107: the bootstrap; [None] is the early [return]. *)
Definition bootstrap : M (option Agent) :=
  try_except
    (agent <- build_agent server_command server_args ;;
     ret (Some agent))
    (fun e =>
       if isinstance_Exception e then
         mcp_server_url <- load_global "mcp_server_url" ;;
         print (NL ++ [0x274C%N] ++ lit " Failed to connect to MCP server at '"
                ++ mcp_server_url ++ lit "'.") ;;
         print (lit "   Please ensure the server is running and accessible.") ;;
         print (lit "   Error details: " ++ exc_str e) ;;
         ret None
       else raise e).

Definition prompt : pystr := lit "You  : ".

(** [user_msg.lower() in {'exit', 'quit'}] *)
Definition is_exit_command (user_msg : pystr) : bool :=
  existsb (pystr_eqb (str_lower user_msg)) [lit "exit"; lit "quit"].

Definition exit_notice : pystr := NL ++ lit "Exiting...".

Definition error_notice (e : Exc) : pystr :=
  NL ++ lit "An error occurred: " ++ exc_str e.

(** Lines 115-131: one pass through the body of [while True]. *)
Definition loop_body (agent : Agent) (agent_context : Context) : M Flow :=
  try_except
    (user_msg <- input prompt ;;
     if is_exit_command user_msg then ret Break
     else
       print_end (lit "Agent: ") [] ;;
       reply <- handle_user_message user_msg agent agent_context true ;;
       print NL ;;
       ret NextIteration)
    (fun e =>
       if isinstance_EOF_or_Interrupt e then
         print exit_notice ;;
         ret Break
       else if isinstance_Exception e then
         print (error_notice e) ;;
         ret Break
       else raise e).

(** [while True: body] *)
Fixpoint while_true (fuel : nat) (body : M Flow) : M unit :=
  match fuel with
  | O => fun w => (Diverged, w)
  | S fuel' =>
      flow <- body ;;
      match flow with
      | Break => ret tt
      | NextIteration => while_true fuel' body
      end
  end.

(** Lines 109-131: the interactive phase. *)
Definition repl (fuel : nat) (agent : Agent) : M unit :=
  agent_context <- new_context agent ;;
  print (NL ++ [0x25B6%N; 0xFE0F%N] ++ lit "  Type 'exit' or Ctrl"
         ++ [0x2011%N] ++ lit "C to quit.") ;;
  print ([0x1F4C4%N]
         ++ lit " Resume screening assistant initialized. Ask me to analyze a resume from a URL.") ;;
  while_true fuel (loop_body agent agent_context).

Definition main (fuel : nat) : M unit :=
  started <- bootstrap ;;
  match started with
  | None => ret tt
  | Some agent => repl fuel agent
  end.

(** Every pass reads one item of the keyboard or ends the loop, so this
    much fuel is always enough ([while_true_total] below). *)
Definition enough_fuel (w : World) : nat := S (List.length (stdin w)).

(* ------------------------------------------------------------------ *)
(** *** Vocabulary of the statements *)

(** The world after the effects [d]. *)
Definition add_trace (d : list Effect) (w : World) : World :=
  mkWorld (stdin w) (memory w) (trace w ++ d).

(** What [handle_event] writes for one event. *)
Definition transcript_of_event (verbose : bool) (event : Ev) : list pystr :=
  match event with
  | ToolCall tool_name tool_kwargs =>
      if verbose then [tool_call_line tool_name tool_kwargs ++ NL] else []
  | AgentStream delta => [delta]
  | ToolCallResult tool_name tool_output =>
      if verbose
      then [tool_result_line tool_name (shorten (str_tool_output tool_output))
            ++ NL]
      else []
  | OtherEvent => []
  end.

(** The trace of consuming one event: the iterator step, then the writes. *)
Definition trace_of_event (verbose : bool) (event : Ev) : list Effect :=
  StreamNext (Some event) :: map Stdout (transcript_of_event verbose event).

(** The exception with which a turn fails, if it does: the one that ends
    the event stream, else the one raised by [await handler]. *)
Definition turn_failure (handler : Run) : option Exc :=
  match h_stream_error handler with
  | Some e => Some e
  | None =>
      match h_result handler with
      | inl e => Some e
      | inr _ => None
      end
  end.

(** What a turn returns or raises after [agent.run] has returned
    [handler]. *)
Definition turn_outcome (handler : Run) : Outcome pystr :=
  match h_stream_error handler with
  | Some e => Raised e
  | None =>
      match h_result handler with
      | inl e => Raised e
      | inr answer => Returned (str_answer answer)
      end
  end.

(** The trace of a turn after [agent.run] has returned [handler]. *)
Definition turn_trace (verbose : bool) (handler : Run) : list Effect :=
  flat_map (trace_of_event verbose) (h_events handler)
  ++ match h_stream_error handler with
     | Some _ => []
     | None => [StreamNext None; AwaitResult]
     end.

(** The text fragments of the [AgentStream] events, in emission order. *)
Definition deltas (events : list Ev) : pystr :=
  flat_map (fun event =>
              match event with
              | AgentStream delta => delta
              | _ => []
              end) events.

(** How the body of the loop ends once the turn handler has returned or
    raised, and what it writes while doing so (lines 125-131). *)
Definition flow_after_turn (o : Outcome pystr) : Outcome Flow :=
  match o with
  | Returned _ => Returned NextIteration
  | Raised e =>
      if isinstance_EOF_or_Interrupt e then Returned Break
      else if isinstance_Exception e then Returned Break
      else Raised e
  | Diverged => Diverged
  end.

Definition closing_of_turn (o : Outcome pystr) : list Effect :=
  match o with
  | Returned _ => [Stdout (NL ++ NL)]
  | Raised e =>
      if isinstance_EOF_or_Interrupt e then [Stdout (exit_notice ++ NL)]
      else if isinstance_Exception e then [Stdout (error_notice e ++ NL)]
      else []
  | Diverged => []
  end.

(** The effects up to the point where a line is handed to the turn
    handler. *)
Definition forwarding (user_msg : pystr) (agent_context : Context)
  : list Effect :=
  [ Stdout prompt; Stdin (Some (Line user_msg)); Stdout (lit "Agent: ");
    AgentRun user_msg agent_context ].

(** The tool specification that [main] has [build_agent] query. *)
Definition server_toolspec : McpToolSpec :=
  mkMcpToolSpec (mkBasicMCPClient server_command server_args 30).

Definition is_AgentRun (e : Effect) : bool :=
  match e with
  | AgentRun _ _ => true
  | _ => false
  end.

Definition is_Stdin (e : Effect) : bool :=
  match e with
  | Stdin _ => true
  | _ => false
  end.

Definition is_Stdout (e : Effect) : bool :=
  match e with
  | Stdout _ => true
  | _ => false
  end.

Definition is_AwaitResult (e : Effect) : bool :=
  match e with
  | AwaitResult => true
  | _ => false
  end.

(** The effects a turn performs once the agent has been run: console
    writes, steps of the event iterator, the await. *)
Definition is_turn_effect (e : Effect) : bool :=
  match e with
  | Stdout _ | StreamNext _ | AwaitResult => true
  | _ => false
  end.

(** What a trace does besides writing to the console. *)
Definition interactions (t : list Effect) : list Effect :=
  filter (fun e => negb (is_Stdout e)) t.

(** The utterances submitted to the agent, in order. *)
Definition utterances (t : list Effect) : list pystr :=
  flat_map (fun e =>
              match e with
              | AgentRun msg _ => [msg]
              | _ => []
              end) t.

(** The lines that [input] returned, in order. *)
Definition lines_read (t : list Effect) : list pystr :=
  flat_map (fun e =>
              match e with
              | Stdin (Some (Line s)) => [s]
              | _ => []
              end) t.

(** An effect of the interactive phase that keeps to the context of the
    session: a run of the agent on that context, or anything but a tool
    fetch and a new context. *)
Definition keeps_context (agent_context : Context) (e : Effect) : Prop :=
  match e with
  | AgentRun _ c => c = agent_context
  | FetchTools _ | NewContext _ => False
  | _ => True
  end.

(** What the session loop maintains about the effects [d] of its
    passes. *)
Definition pass_facts (ctx : Context) (d : list Effect) : Prop :=
  Forall (keeps_context ctx) d
  /\ utterances d =
     filter (fun s => negb (is_exit_command s)) (lines_read d).

End Model.

Arguments Raised {A} e.
Arguments Diverged {A}.

(* ================================================================== *)
(** ** A scripted agent

    A test double for the collaborators: the endpoint answers as the
    script says, and every [agent.run] plays the next scripted turn. *)

Module Scripted.

Definition Turn : Type := (Exc + Handler pystr pystr pystr)%type.

Record Script : Type := mkScript {
  endpoint : Exc + nat;
  turns : list Turn
}.

Definition externals_on (asyncio_handles_sigint : bool) : Externals := {|
  Kwargs := pystr;
  ToolOutput := pystr;
  Answer := pystr;
  Tool := unit;
  Agent := unit;
  Context := unit;
  Mem := Script;
  str_kwargs := fun s => s;
  str_tool_output := fun s => s;
  str_answer := fun s => s;
  unicode_lower := fun s => s;
  sigint_cancels_task := asyncio_handles_sigint;
  to_tool_list_async := fun _ m =>
    (match endpoint m with
     | inl e => inl e
     | inr n => inr (repeat tt n)
     end, m);
  ReActAgent := fun _ _ => tt;
  Context_new := fun _ m => (tt, m);
  agent_run := fun _ _ _ m =>
    match turns m with
    | [] => (inl (mkExc OtherException (lit "script exhausted")), m)
    | t :: rest => (t, mkScript (endpoint m) rest)
    end
|}.

(** The collaborators on Python 3.11 and later, and on an earlier Python. *)
Definition externals : Externals := externals_on true.

Definition legacy : Externals := externals_on false.

Definition world (keys : list Keyboard) (script : Script) : @World externals :=
  @mkWorld externals keys script [].

Definition legacy_world (keys : list Keyboard) (script : Script)
  : @World legacy :=
  @mkWorld legacy keys script [].

(** A tool output of 300 characters. *)
Definition long_output : pystr := repeat 120%N 300.

Definition screening_events : list (Event pystr pystr) :=
  [ ToolCall (lit "browser_navigate") (lit "{'url': 'https://example.org/cv'}");
    ToolCallResult (lit "browser_navigate") long_output;
    AgentStream (lit "Good ");
    OtherEvent;
    AgentStream (lit "fit.") ].

Definition good_handler : Handler pystr pystr pystr :=
  mkHandler screening_events None (inr (lit "Good fit.")).

(** The stream breaks off with an [EOFError] after one fragment. *)
Definition cut_off_handler : Handler pystr pystr pystr :=
  mkHandler [AgentStream (lit "Go")]
    (Some (mkExc EOFError (lit "server closed the pipe")))
    (inr (lit "Good fit.")).

(** The cancellation requested at the prompt is delivered at the first
    step of the stream, before any event. *)
Definition cancelled_handler : Handler pystr pystr pystr :=
  mkHandler [] (Some (mkExc OtherBaseException []))
    (inr (lit "Good fit.")).

(** The stream completes and the await raises. *)
Definition failing_handler : Handler pystr pystr pystr :=
  mkHandler [AgentStream (lit "Go")] None
    (inl (mkExc OtherException (lit "rate limit"))).

Definition online (handlers : list (Handler pystr pystr pystr)) : Script :=
  mkScript (inr 3) (map inr handlers).

Definition unreachable : Script :=
  mkScript (inl (mkExc OtherException (lit "connection refused"))) [].

(** The agent refuses the first utterance outright. *)
Definition rejecting : Script :=
  mkScript (inr 3) [inl (mkExc OtherException (lit "bad request"))].

(** Startup is interrupted while the tools are fetched. *)
Definition interrupted_startup : Script :=
  mkScript (inl (mkExc KeyboardInterrupt [])) [].

End Scripted.

(* ================================================================== *)
(** ** Properties *)

Section Properties.

Context {Ext : Externals}.

(* ------------------------------------------------------------------ *)
(** *** Traces and printed text *)

Lemma printed_app (a b : list Effect) :
  printed (a ++ b) = printed a ++ printed b.
Proof.
  induction a as [|e a IH]; simpl.
  - reflexivity.
  - destruct e; simpl; rewrite ?IH, <- ?app_assoc; reflexivity.
Qed.

Lemma printed_stdout (chunks : list pystr) :
  printed (map Stdout chunks) = List.concat chunks.
Proof.
  induction chunks as [|c chunks IH]; simpl; [reflexivity|].
  now rewrite IH.
Qed.

Lemma add_trace_nil (w : World) : add_trace [] w = w.
Proof.
  destruct w as [k m t]. unfold add_trace. simpl. now rewrite app_nil_r.
Qed.

Lemma add_trace_add (d1 d2 : list Effect) (w : World) :
  add_trace d2 (add_trace d1 w) = add_trace (d1 ++ d2) w.
Proof.
  unfold add_trace. simpl. now rewrite app_assoc.
Qed.

Lemma effect_run (e : Effect) (w : World) :
  effect e w = (Returned tt, add_trace [e] w).
Proof. reflexivity. Qed.

(* ------------------------------------------------------------------ *)
(** *** One event, one stream, one turn *)

Lemma handle_event_run (verbose : bool) (event : Ev) (w : World) :
  handle_event verbose event w =
  (Returned tt, add_trace (map Stdout (transcript_of_event verbose event)) w).
Proof.
  destruct event as [n kw|d|n o|]; destruct verbose;
    unfold handle_event, bind, print, print_end, ret; simpl;
    rewrite ?effect_run, ?add_trace_nil, ?app_nil_r; reflexivity.
Qed.

Lemma stream_events_run (verbose : bool) (events : list Ev)
    (err : option Exc) (w : World) :
  stream_events verbose events err w =
  (match err with Some e => Raised e | None => Returned tt end,
   add_trace (flat_map (trace_of_event verbose) events
              ++ match err with Some _ => [] | None => [StreamNext None] end)
             w).
Proof.
  revert w. induction events as [|event rest IH]; intro w; simpl.
  - destruct err as [e|].
    + unfold raise. now rewrite add_trace_nil.
    + apply effect_run.
  - unfold bind at 1. rewrite effect_run.
    unfold bind at 1. rewrite handle_event_run.
    rewrite IH, !add_trace_add. do 2 f_equal.
    unfold trace_of_event. simpl. now rewrite <- app_assoc.
Qed.

Lemma handle_user_message_run (msg : pystr) (agent : Agent) (ctx : Context)
    (verbose : bool) (w : World) (h : Run) (m' : Mem) :
  agent_run agent msg ctx (memory w) = (inr h, m') ->
  handle_user_message msg agent ctx verbose w =
  (turn_outcome h,
   mkWorld (stdin w) m' (trace w ++ AgentRun msg ctx :: turn_trace verbose h)).
Proof.
  intro Hrun.
  unfold handle_user_message, bind at 1, run. simpl. rewrite Hrun.
  unfold bind at 1. rewrite stream_events_run.
  unfold turn_outcome, turn_trace, await_handler.
  destruct (h_stream_error h) as [e|].
  - unfold add_trace, set_memory, log. simpl.
    now rewrite <- app_assoc.
  - unfold bind, effect, add_trace, set_memory, log, raise, ret. simpl.
    destruct (h_result h) as [e|a]; simpl;
      rewrite <- ?app_assoc; simpl; rewrite <- ?app_assoc; reflexivity.
Qed.

Lemma handle_user_message_run_raises (msg : pystr) (agent : Agent)
    (ctx : Context) (verbose : bool) (w : World) (e : Exc) (m' : Mem) :
  agent_run agent msg ctx (memory w) = (inl e, m') ->
  handle_user_message msg agent ctx verbose w =
  (Raised e, mkWorld (stdin w) m' (trace w ++ [AgentRun msg ctx])).
Proof.
  intro Hrun.
  unfold handle_user_message, bind at 1, run. simpl. now rewrite Hrun.
Qed.

Lemma printed_stream (verbose : bool) (events : list Ev) :
  printed (flat_map (trace_of_event verbose) events) =
  List.concat (flat_map (transcript_of_event verbose) events).
Proof.
  induction events as [|event rest IH]; simpl; [reflexivity|].
  now rewrite printed_app, printed_stdout, concat_app, IH.
Qed.

Lemma shorten_short (s : pystr) :
  List.length s <= 250 -> shorten s = s.
Proof.
  intro Hlen. unfold shorten.
  destruct (Nat.ltb_spec 250 (List.length s)); [lia|reflexivity].
Qed.

Lemma shorten_long (s : pystr) :
  250 < List.length s -> shorten s = firstn 250 s ++ lit "...".
Proof.
  intro Hlen. unfold shorten.
  destruct (Nat.ltb_spec 250 (List.length s)); [reflexivity|lia].
Qed.

(* ------------------------------------------------------------------ *)
(** *** The turn handler *)

(** C2: with verbosity enabled, a Tool-Call Result is printed as one line
    that carries the string form of the tool output unchanged when it has
    at most 250 characters, and otherwise exactly its first 250 characters
    followed by the marker "...". *)
Theorem tool_result_output_truncated_at_250
    (tool_name : pystr) (tool_output : ToolOutput) (w : World) :
  exists shown : pystr,
    handle_event true (ToolCallResult tool_name tool_output) w =
    (Returned tt,
     add_trace [Stdout ([0x2705%N] ++ lit " Tool '" ++ tool_name
                        ++ lit "' returned: " ++ shown ++ NL)] w)
    /\ (List.length (str_tool_output tool_output) <= 250 ->
        shown = str_tool_output tool_output)
    /\ (250 < List.length (str_tool_output tool_output) ->
        shown = firstn 250 (str_tool_output tool_output) ++ lit "..."
        /\ List.length (firstn 250 (str_tool_output tool_output)) = 250).
Proof.
  exists (shorten (str_tool_output tool_output)).
  split; [|split].
  - rewrite handle_event_run. simpl. unfold tool_result_line.
    now rewrite <- !app_assoc.
  - apply shorten_short.
  - intro Hlen. split.
    + now apply shorten_long.
    + rewrite length_firstn. lia.
Qed.

(** C3: for every utterance and every finite event sequence followed by a
    deferred answer, the turn handler steps through the events in emission
    order, writes the transcript of each event before it asks for the next
    one, awaits the result only once the stream is exhausted (the await is
    the last interaction of the turn), and returns the string form of the
    answer. *)
Theorem handle_user_message_consumes_then_awaits
    (msg : pystr) (agent : Agent) (ctx : Context) (verbose : bool)
    (w : World) (events : list Ev) (answer : Answer) (m' : Mem) :
  agent_run agent msg ctx (memory w) =
    (inr (mkHandler events None (inr answer)), m') ->
  fst (handle_user_message msg agent ctx verbose w) =
    Returned (str_answer answer)
  /\ trace (snd (handle_user_message msg agent ctx verbose w)) =
     trace w ++ [AgentRun msg ctx]
     ++ flat_map (trace_of_event verbose) events
     ++ [StreamNext None; AwaitResult]
  /\ printed (trace (snd (handle_user_message msg agent ctx verbose w))) =
     printed (trace w)
     ++ List.concat (flat_map (transcript_of_event verbose) events).
Proof.
  intro Hrun. rewrite (@handle_user_message_run _ _ _ verbose _ _ _ Hrun).
  unfold turn_outcome, turn_trace. simpl.
  repeat split.
  change (AgentRun msg ctx :: ?t) with ([AgentRun msg ctx] ++ t).
  rewrite !printed_app, printed_stream. simpl. now rewrite app_nil_r.
Qed.

(** C4: an Output Delta is written at once, whatever the verbosity, as
    exactly its text fragment: no newline after it and nothing between two
    fragments.  So a stream of deltas prints the concatenation of its
    fragments, and without verbosity the printed text of any stream is the
    concatenation of the fragments of its deltas. *)
Theorem output_delta_printed_verbatim :
  (forall (verbose : bool) (delta : pystr) (w : World),
      handle_event verbose (AgentStream delta) w =
      (Returned tt, add_trace [Stdout delta] w))
  /\ (forall (verbose : bool) (fragments : list pystr) (err : option Exc)
             (w : World),
         printed (trace (snd (stream_events verbose
                                (map (@AgentStream Kwargs ToolOutput) fragments)
                                err w))) =
         printed (trace w) ++ List.concat fragments)
  /\ (forall (events : list Ev) (err : option Exc) (w : World),
         printed (trace (snd (stream_events false events err w))) =
         printed (trace w) ++ deltas events).
Proof.
  split; [|split].
  - intros. now rewrite handle_event_run.
  - intros. rewrite stream_events_run. simpl.
    rewrite !printed_app, printed_stream. f_equal.
    assert (Htail : printed (match err with
                             | Some _ => []
                             | None => [StreamNext None]
                             end) = []) by now destruct err.
    rewrite Htail, app_nil_r.
    induction fragments as [|f fs IH]; simpl; [reflexivity|].
    now rewrite IH.
  - intros. rewrite stream_events_run. simpl.
    rewrite !printed_app, printed_stream.
    assert (Htail : printed (match err with
                             | Some _ => []
                             | None => [StreamNext None]
                             end) = []) by now destruct err.
    rewrite Htail, app_nil_r. f_equal.
    induction events as [|event rest IH]; simpl; [reflexivity|].
    rewrite concat_app, IH. f_equal.
    destruct event; simpl; rewrite ?app_nil_r; reflexivity.
Qed.

(** C5: with verbosity enabled, a Tool-Call Request is printed as one line
    made of the tool name and the string form of the arguments of that very
    event; two requests whose arguments print differently give different
    lines, so nothing is substituted for the arguments. *)
Theorem tool_call_printed_as_supplied :
  (forall (tool_name : pystr) (tool_kwargs : Kwargs) (w : World),
      handle_event true (ToolCall tool_name tool_kwargs) w =
      (Returned tt,
       add_trace [Stdout (NL ++ [0x1F527%N] ++ lit " Calling tool '"
                          ++ tool_name ++ lit "' with "
                          ++ str_kwargs tool_kwargs ++ NL)] w))
  /\ (forall (tool_name : pystr) (kw1 kw2 : Kwargs),
         tool_call_line tool_name kw1 = tool_call_line tool_name kw2 ->
         str_kwargs kw1 = str_kwargs kw2).
Proof.
  split.
  - intros. rewrite handle_event_run. simpl. unfold tool_call_line.
    now rewrite <- !app_assoc.
  - intros tool_name kw1 kw2 Hline. unfold tool_call_line in Hline.
    repeat apply app_inv_head in Hline. exact Hline.
Qed.

(** C9: two independent turns on the same utterance, whose runs deliver
    the same event sequence and the same deferred result, return the same
    string (or raise the same exception) and print the same transcript,
    whatever the agents, the contexts and the worlds they start from. *)
Theorem handle_user_message_deterministic
    (msg : pystr) (verbose : bool) (h : Run)
    (agent1 agent2 : Agent) (ctx1 ctx2 : Context) (w1 w2 : World)
    (m1 m2 : Mem) :
  agent_run agent1 msg ctx1 (memory w1) = (inr h, m1) ->
  agent_run agent2 msg ctx2 (memory w2) = (inr h, m2) ->
  fst (handle_user_message msg agent1 ctx1 verbose w1) =
  fst (handle_user_message msg agent2 ctx2 verbose w2)
  /\ exists transcript : pystr,
       printed (trace (snd (handle_user_message msg agent1 ctx1 verbose w1))) =
       printed (trace w1) ++ transcript
       /\ printed (trace (snd (handle_user_message msg agent2 ctx2 verbose w2))) =
          printed (trace w2) ++ transcript.
Proof.
  intros Hrun1 Hrun2.
  rewrite (@handle_user_message_run _ _ _ verbose _ _ _ Hrun1).
  rewrite (@handle_user_message_run _ _ _ verbose _ _ _ Hrun2).
  split; [reflexivity|].
  exists (printed (turn_trace verbose h)). simpl.
  change (AgentRun msg ctx1 :: ?t) with ([AgentRun msg ctx1] ++ t).
  change (AgentRun msg ctx2 :: ?t) with ([AgentRun msg ctx2] ++ t).
  now rewrite !printed_app.
Qed.

(* ------------------------------------------------------------------ *)
(** *** The session loop: one pass *)

Lemma input_unfold (p : pystr) (w : World) :
  input p w = wait_for_line (stdin w) (add_trace [Stdout p] w).
Proof. reflexivity. Qed.

Lemma sigint_before_prompt (p : pystr) (w : World) :
  existsb is_sigint (trace (add_trace [Stdout p] w)) =
  existsb is_sigint (trace w).
Proof.
  unfold add_trace. cbn [trace]. rewrite existsb_app. cbn [existsb is_sigint].
  now rewrite !orb_false_r.
Qed.

Lemma input_eof (p : pystr) (w : World) :
  stdin w = [] ->
  input p w =
  (Raised (mkExc EOFError (lit "EOF when reading a line")),
   add_trace [Stdout p; Stdin None] w).
Proof.
  intro Hk. rewrite input_unfold, Hk. cbn [wait_for_line].
  unfold log, add_trace. cbn [stdin memory trace]. now rewrite <- app_assoc.
Qed.


(** The first interrupt under the handler of [asyncio.run]: nothing is
    raised, and the read goes on with the rest of the keyboard. *)
Lemma input_first_sigint (p : pystr) (w : World) (rest : list Keyboard) :
  stdin w = CtrlC :: rest ->
  sigint_cancels_task = true ->
  existsb is_sigint (trace w) = false ->
  input p w =
  wait_for_line rest
    (mkWorld rest (memory w) (trace w ++ [Stdout p; Stdin (Some CtrlC)])).
Proof.
  intros Hk Hcancels Hfirst. rewrite input_unfold, Hk. cbn [wait_for_line].
  rewrite sigint_before_prompt, Hcancels, Hfirst. cbn [negb andb].
  unfold log, set_stdin, add_trace. cbn [stdin memory trace].
  now rewrite <- app_assoc.
Qed.

Lemma input_line (p s : pystr) (w : World) (rest : list Keyboard) :
  stdin w = Line s :: rest ->
  input p w =
  (Returned s,
   mkWorld rest (memory w) (trace w ++ [Stdout p; Stdin (Some (Line s))])).
Proof.
  intro Hk. rewrite input_unfold, Hk. cbn [wait_for_line].
  unfold log, set_stdin, add_trace. cbn [stdin memory trace].
  now rewrite <- app_assoc.
Qed.

(** What a read comes to: it takes items off the front of the keyboard,
    and either returns the line it took last or raises [EOFError] or
    [KeyboardInterrupt]. *)
Lemma wait_for_line_shape (keys : list Keyboard) (w : World) :
  stdin w = keys ->
  exists (o : Outcome pystr) (d : list Effect) (k : list Keyboard),
    wait_for_line keys w = (o, mkWorld k (memory w) (trace w ++ d))
    /\ forallb is_Stdin d = true
    /\ lines_read d = match o with Returned s => [s] | _ => [] end
    /\ List.length k <= List.length keys
    /\ match o with
       | Returned _ => List.length k < List.length keys
       | Raised e => isinstance_EOF_or_Interrupt e = true
       | Diverged => False
       end.
Proof.
  revert w. induction keys as [|[s|] rest IH]; intros w Hk.
  - exists (Raised (mkExc EOFError (lit "EOF when reading a line"))),
      [Stdin None], [].
    cbn [wait_for_line]. unfold log. rewrite Hk. repeat split; auto.
  - exists (Returned s), [Stdin (Some (Line s))], rest.
    cbn [wait_for_line]. unfold log, set_stdin. cbn [stdin memory trace].
    repeat split; cbn [List.length]; lia.
  - cbn [wait_for_line].
    destruct (sigint_cancels_task && negb (existsb is_sigint (trace w))).
    + destruct (IH (log (Stdin (Some CtrlC)) (set_stdin rest w)) eq_refl)
        as (o & d & k & Hrun & Hd & Hl & Hlen & Ho).
      exists o, (Stdin (Some CtrlC) :: d), k. rewrite Hrun.
      unfold log, set_stdin. cbn [stdin memory trace].
      rewrite <- app_assoc. repeat split; auto.
      * cbn [List.length]. lia.
      * destruct o; cbn [List.length]; auto; lia.
    + exists (Raised (mkExc KeyboardInterrupt [])), [Stdin (Some CtrlC)], rest.
      unfold log, set_stdin. cbn [stdin memory trace].
      repeat split; cbn [List.length]; lia.
Qed.

Lemma input_shape (p : pystr) (w : World) :
  exists (o : Outcome pystr) (d : list Effect) (k : list Keyboard),
    input p w = (o, mkWorld k (memory w) (trace w ++ Stdout p :: d))
    /\ forallb is_Stdin d = true
    /\ lines_read d = match o with Returned s => [s] | _ => [] end
    /\ match o with
       | Returned _ => List.length k < List.length (stdin w)
       | Raised e => isinstance_EOF_or_Interrupt e = true
       | Diverged => False
       end.
Proof.
  destruct (wait_for_line_shape (add_trace [Stdout p] w) eq_refl)
    as (o & d & k & Hrun & Hd & Hl & _ & Ho).
  exists o, d, k. rewrite input_unfold.
  cbn [stdin add_trace] in Hrun. rewrite Hrun.
  unfold add_trace. cbn [stdin memory trace]. rewrite <- app_assoc.
  repeat split; auto.
Qed.

Lemma loop_body_eof (agent : Agent) (ctx : Context) (w : World) :
  stdin w = [] ->
  loop_body agent ctx w =
  (Returned Break,
   add_trace [Stdout prompt; Stdin None; Stdout (exit_notice ++ NL)] w).
Proof.
  intro Hk. unfold loop_body, try_except, bind at 1.
  rewrite (input_eof _ _ Hk). simpl.
  unfold bind, print. rewrite effect_run, add_trace_add. reflexivity.
Qed.


(** The body in terms of what [input] comes to. *)
Lemma loop_body_input_raises (agent : Agent) (ctx : Context) (w w' : World)
    (e : Exc) :
  input prompt w = (Raised e, w') ->
  isinstance_EOF_or_Interrupt e = true ->
  loop_body agent ctx w =
  (Returned Break, add_trace [Stdout (exit_notice ++ NL)] w').
Proof.
  intros Hin Hcls. unfold loop_body, try_except, bind at 1.
  rewrite Hin, Hcls. unfold bind, print, ret. now rewrite effect_run.
Qed.

Lemma loop_body_input_exit (agent : Agent) (ctx : Context) (w w' : World)
    (s : pystr) :
  input prompt w = (Returned s, w') ->
  is_exit_command s = true ->
  loop_body agent ctx w = (Returned Break, w').
Proof.
  intros Hin Hexit. unfold loop_body, try_except, bind at 1.
  now rewrite Hin, Hexit.
Qed.

Lemma loop_body_input_turn (agent : Agent) (ctx : Context)
    (w w0 w' : World) (s : pystr) (o : Outcome pystr) :
  input prompt w = (Returned s, w0) ->
  is_exit_command s = false ->
  handle_user_message s agent ctx true
    (add_trace [Stdout (lit "Agent: ")] w0) = (o, w') ->
  loop_body agent ctx w = (flow_after_turn o, add_trace (closing_of_turn o) w').
Proof.
  intros Hin Hexit Hturn. unfold loop_body, try_except, bind at 1.
  rewrite Hin, Hexit.
  unfold bind at 1, print_end. rewrite effect_run, app_nil_r.
  unfold bind at 1. rewrite Hturn.
  destruct o as [reply|e|]; cbn [flow_after_turn closing_of_turn].
  - unfold bind, print, ret. now rewrite effect_run.
  - destruct (isinstance_EOF_or_Interrupt e).
    + unfold bind, print, ret. now rewrite effect_run.
    + destruct (isinstance_Exception e).
      * unfold bind, print, ret. now rewrite effect_run.
      * unfold raise. now rewrite add_trace_nil.
  - now rewrite add_trace_nil.
Qed.

Lemma loop_body_exit (agent : Agent) (ctx : Context) (w : World)
    (s : pystr) (rest : list Keyboard) :
  stdin w = Line s :: rest ->
  is_exit_command s = true ->
  loop_body agent ctx w =
  (Returned Break,
   mkWorld rest (memory w)
     (trace w ++ [Stdout prompt; Stdin (Some (Line s))])).
Proof.
  intros Hk Hexit. unfold loop_body, try_except, bind at 1.
  rewrite (input_line _ _ Hk), Hexit. reflexivity.
Qed.

Lemma loop_body_turn (agent : Agent) (ctx : Context) (w w' : World)
    (s : pystr) (rest : list Keyboard) (o : Outcome pystr) :
  stdin w = Line s :: rest ->
  is_exit_command s = false ->
  handle_user_message s agent ctx true
    (mkWorld rest (memory w)
       (trace w ++ [Stdout prompt; Stdin (Some (Line s));
                    Stdout (lit "Agent: ")])) = (o, w') ->
  loop_body agent ctx w = (flow_after_turn o, add_trace (closing_of_turn o) w').
Proof.
  intros Hk Hexit Hturn. unfold loop_body, try_except, bind at 1.
  rewrite (input_line _ _ Hk), Hexit.
  unfold bind at 1, print_end. rewrite effect_run.
  unfold add_trace at 1. cbn [stdin memory trace].
  rewrite app_nil_r, <- app_assoc. cbn [app].
  unfold bind at 1. rewrite Hturn.
  destruct o as [reply|e|]; cbn [flow_after_turn closing_of_turn].
  - unfold bind, print, ret. now rewrite effect_run.
  - destruct (isinstance_EOF_or_Interrupt e).
    + unfold bind, print, ret. now rewrite effect_run.
    + destruct (isinstance_Exception e).
      * unfold bind, print, ret. now rewrite effect_run.
      * unfold raise. now rewrite add_trace_nil.
  - now rewrite add_trace_nil.
Qed.

(** Whatever the agent does, a turn begins with [agent.run], leaves the
    keyboard alone and comes back. *)
Lemma handle_user_message_shape (msg : pystr) (agent : Agent)
    (ctx : Context) (verbose : bool) (w : World) :
  exists (o : Outcome pystr) (d : list Effect) (m' : Mem),
    handle_user_message msg agent ctx verbose w =
    (o, mkWorld (stdin w) m' (trace w ++ AgentRun msg ctx :: d))
    /\ o <> Diverged.
Proof.
  destruct (agent_run agent msg ctx (memory w)) as [[e|h] m'] eqn:Hrun.
  - exists (Raised e), [], m'. split; [|discriminate].
    now apply handle_user_message_run_raises.
  - exists (turn_outcome h), (turn_trace verbose h), m'. split.
    + now apply handle_user_message_run.
    + unfold turn_outcome. destruct (h_stream_error h); [discriminate|].
      destruct (h_result h); discriminate.
Qed.


(* ------------------------------------------------------------------ *)
(** *** The session loop: [while True] *)

Lemma while_true_break (fuel : nat) (body : M Flow) (w w' : World) :
  body w = (Returned Break, w') ->
  while_true (S fuel) body w = (Returned tt, w').
Proof. intro Hb. simpl. unfold bind. now rewrite Hb. Qed.

Lemma while_true_raise (fuel : nat) (body : M Flow) (w w' : World)
    (e : Exc) :
  body w = (Raised e, w') ->
  while_true (S fuel) body w = (Raised e, w').
Proof. intro Hb. simpl. unfold bind. now rewrite Hb. Qed.

Lemma while_true_next (fuel : nat) (body : M Flow) (w w' : World) :
  body w = (Returned NextIteration, w') ->
  while_true (S fuel) body w = while_true fuel body w'.
Proof. intro Hb. simpl. unfold bind. now rewrite Hb. Qed.

Lemma pystr_eqb_eq (a b : pystr) : pystr_eqb a b = true <-> a = b.
Proof.
  unfold pystr_eqb. destruct (list_eq_dec N.eq_dec a b); split;
    intros; congruence.
Qed.

Lemma is_exit_command_spec (s : pystr) :
  is_exit_command s = true <->
  str_lower s = lit "exit" \/ str_lower s = lit "quit".
Proof.
  unfold is_exit_command. cbn [existsb].
  rewrite orb_false_r, orb_true_iff, !pystr_eqb_eq. reflexivity.
Qed.

(** One pass either ends the loop or has read one line. *)
Lemma loop_body_shape (agent : Agent) (ctx : Context) (w : World) :
  exists (f : Outcome Flow) (d : list Effect) (k : list Keyboard) (m : Mem),
    loop_body agent ctx w = (f, mkWorld k m (trace w ++ d))
    /\ f <> Diverged
    /\ (f = Returned NextIteration ->
        List.length k < List.length (stdin w)).
Proof.
  destruct (input_shape prompt w) as (o & d & k & Hin & _ & _ & Ho).
  destruct o as [s|e|]; [| |contradiction].
  - destruct (is_exit_command s) eqn:Hexit.
    + exists (Returned Break), (Stdout prompt :: d), k, (memory w).
      rewrite (@loop_body_input_exit agent ctx _ _ _ Hin Hexit).
      repeat split; discriminate.
    + destruct (handle_user_message_shape s agent ctx true
                  (add_trace [Stdout (lit "Agent: ")]
                     (mkWorld k (memory w) (trace w ++ Stdout prompt :: d))))
        as (o' & d' & m' & Hturn & Hterm).
      exists (flow_after_turn o'),
        (Stdout prompt :: d ++ Stdout (lit "Agent: ") :: AgentRun s ctx :: d'
         ++ closing_of_turn o'), k, m'.
      rewrite (@loop_body_input_turn agent ctx _ _ _ _ _ Hin Hexit Hturn). split; [|split].
      * unfold add_trace. cbn [stdin memory trace].
        repeat rewrite <- app_assoc. cbn [app].
        repeat rewrite <- app_assoc. reflexivity.
      * destruct o' as [reply|e|]; cbn [flow_after_turn];
          try discriminate; [|congruence].
        destruct (isinstance_EOF_or_Interrupt e); [discriminate|].
        destruct (isinstance_Exception e); discriminate.
      * intros _. exact Ho.
  - exists (Returned Break),
      (Stdout prompt :: d ++ [Stdout (exit_notice ++ NL)]), k, (memory w).
    rewrite (@loop_body_input_raises agent ctx _ _ _ Hin Ho). split; [|split].
    + unfold add_trace. cbn [stdin memory trace].
      repeat rewrite <- app_assoc. reflexivity.
    + discriminate.
    + discriminate.
Qed.

Lemma while_true_extends (fuel : nat) (agent : Agent) (ctx : Context)
    (w : World) :
  exists d : list Effect,
    trace (snd (while_true fuel (loop_body agent ctx) w)) = trace w ++ d.
Proof.
  revert w. induction fuel as [|fuel IH]; intro w.
  - exists []. simpl. now rewrite app_nil_r.
  - destruct (loop_body_shape agent ctx w) as (f & d & k & m & Hbody & _ & _).
    destruct f as [[|]|e|].
    + rewrite (while_true_next _ _ _ Hbody).
      destruct (IH (mkWorld k m (trace w ++ d))) as (d' & Hd').
      exists (d ++ d'). rewrite Hd'. simpl. now rewrite app_assoc.
    + rewrite (while_true_break _ _ _ Hbody). now exists d.
    + rewrite (while_true_raise _ _ _ Hbody). now exists d.
    + exists d. simpl. unfold bind. now rewrite Hbody.
Qed.

(** The loop comes to an end on every keyboard: [enough_fuel] is enough. *)
Lemma while_true_total (fuel : nat) (agent : Agent) (ctx : Context)
    (w : World) :
  List.length (stdin w) < fuel ->
  fst (while_true fuel (loop_body agent ctx) w) <> Diverged.
Proof.
  revert w. induction fuel as [|fuel IH]; intros w Hfuel; [lia|].
  destruct (loop_body_shape agent ctx w)
    as (f & d & k & m & Hbody & Hterm & Hless).
  destruct f as [[|]|e|].
  - rewrite (while_true_next _ _ _ Hbody). apply IH. simpl.
    specialize (Hless eq_refl). lia.
  - rewrite (while_true_break _ _ _ Hbody). discriminate.
  - rewrite (while_true_raise _ _ _ Hbody). discriminate.
  - congruence.
Qed.

(** A turn that fails ends the loop: the pass that ran it is the last. *)
Lemma while_true_failed_turn (fuel : nat) (agent : Agent) (ctx : Context)
    (w : World) (s : pystr) (rest : list Keyboard) (h : Run) (m' : Mem)
    (e : Exc) :
  stdin w = Line s :: rest ->
  is_exit_command s = false ->
  agent_run agent s ctx (memory w) = (inr h, m') ->
  turn_failure h = Some e ->
  while_true (S fuel) (loop_body agent ctx) w =
  (match flow_after_turn (Raised e) with
   | Raised e' => Raised e'
   | _ => Returned tt
   end,
   mkWorld rest m'
     (trace w ++ forwarding s ctx ++ turn_trace true h
      ++ closing_of_turn (Raised e))).
Proof.
  intros Hk Hexit Hrun Hfail.
  assert (Hout : turn_outcome h = Raised e).
  { unfold turn_failure in Hfail. unfold turn_outcome.
    destruct (h_stream_error h); [congruence|].
    destruct (h_result h); congruence. }
  pose proof (@handle_user_message_run s agent ctx true
                (mkWorld rest (memory w)
                   (trace w ++ [Stdout prompt; Stdin (Some (Line s));
                                Stdout (lit "Agent: ")])) h m' Hrun) as Hturn.
  rewrite Hout in Hturn.
  pose proof (loop_body_turn _ _ _ Hk Hexit Hturn) as Hbody.
  unfold add_trace in Hbody. cbn [stdin memory trace] in Hbody.
  assert (Htrace :
            ((trace w ++ [Stdout prompt; Stdin (Some (Line s));
                          Stdout (lit "Agent: ")])
             ++ AgentRun s ctx :: turn_trace true h)
            ++ closing_of_turn (Raised e)
            = trace w ++ forwarding s ctx ++ turn_trace true h
              ++ closing_of_turn (Raised e)).
  { unfold forwarding. rewrite <- !app_assoc. reflexivity. }
  rewrite Htrace in Hbody.
  destruct (flow_after_turn (Raised e)) as [[|]|e'|] eqn:Hflow.
  - simpl in Hflow. destruct (isinstance_EOF_or_Interrupt e);
      [discriminate|]. destruct (isinstance_Exception e); discriminate.
  - now apply while_true_break.
  - now apply while_true_raise.
  - simpl in Hflow. destruct (isinstance_EOF_or_Interrupt e);
      [discriminate|]. destruct (isinstance_Exception e); discriminate.
Qed.


(** C6, on the code: under the SIGINT handler of [asyncio.run] the first
    interrupt at the prompt raises nothing in [input], so the [except]
    clause for [KeyboardInterrupt] is not reached: no exit notice is
    written, the same pass goes on waiting, and the line that follows is
    handed to the turn handler.  When the cancellation that the handler
    requested is then delivered in that turn, it leaves the session loop
    uncaught. *)
Theorem first_interrupt_at_prompt_does_not_end_session
    (fuel : nat) (agent : Agent) (ctx : Context) (w : World) (s : pystr)
    (rest : list Keyboard) :
  sigint_cancels_task = true ->
  existsb is_sigint (trace w) = false ->
  stdin w = CtrlC :: Line s :: rest ->
  is_exit_command s = false ->
  (exists d : list Effect,
      trace (snd (while_true (S fuel) (loop_body agent ctx) w)) =
      trace w
      ++ [Stdout prompt; Stdin (Some CtrlC); Stdin (Some (Line s));
          Stdout (lit "Agent: "); AgentRun s ctx]
      ++ d)
  /\ (forall (h : Run) (m' : Mem) (e : Exc),
         agent_run agent s ctx (memory w) = (inr h, m') ->
         turn_failure h = Some e ->
         isinstance_EOF_or_Interrupt e = false ->
         isinstance_Exception e = false ->
         while_true (S fuel) (loop_body agent ctx) w =
         (Raised e,
          mkWorld rest m'
            (trace w
             ++ [Stdout prompt; Stdin (Some CtrlC); Stdin (Some (Line s));
                 Stdout (lit "Agent: "); AgentRun s ctx]
             ++ turn_trace true h))).
Proof.
  intros Hcancels Hfirst Hk Hexit.
  assert (Hin : input prompt w =
                (Returned s,
                 mkWorld rest (memory w)
                   (trace w ++ [Stdout prompt; Stdin (Some CtrlC);
                                Stdin (Some (Line s))]))).
  { rewrite (input_first_sigint _ _ Hk Hcancels Hfirst).
    cbn [wait_for_line]. unfold log, set_stdin. cbn [stdin memory trace].
    now rewrite <- app_assoc. }
  split.
  - destruct (handle_user_message_shape s agent ctx true
                (add_trace [Stdout (lit "Agent: ")]
                   (mkWorld rest (memory w)
                      (trace w ++ [Stdout prompt; Stdin (Some CtrlC);
                                   Stdin (Some (Line s))]))))
      as (o & d & m' & Hturn & Hterm).
    pose proof (@loop_body_input_turn agent ctx _ _ _ _ _ Hin Hexit Hturn)
      as Hbody.
    unfold add_trace in Hbody. cbn [stdin memory trace] in Hbody.
    repeat rewrite <- app_assoc in Hbody. cbn [app] in Hbody.
    destruct (flow_after_turn o) as [[|]|e|] eqn:Hflow.
    + rewrite (while_true_next _ _ _ Hbody).
      match goal with
      | |- context [while_true fuel _ ?w1] =>
          destruct (while_true_extends fuel agent ctx w1) as (d' & Hd')
      end.
      exists (d ++ closing_of_turn o ++ d'). rewrite Hd'. cbn [trace].
      repeat rewrite <- app_assoc. cbn [app].
      repeat rewrite <- app_assoc. reflexivity.
    + rewrite (while_true_break _ _ _ Hbody).
      exists (d ++ closing_of_turn o). cbn [snd trace app]. reflexivity.
    + rewrite (while_true_raise _ _ _ Hbody).
      exists (d ++ closing_of_turn o). cbn [snd trace app]. reflexivity.
    + destruct o as [reply|e|]; cbn [flow_after_turn] in Hflow;
        try discriminate; [|congruence].
      destruct (isinstance_EOF_or_Interrupt e); [discriminate|].
      destruct (isinstance_Exception e); discriminate.
  - intros h m' e Hrun Hfail Hcls Hexc.
    pose proof (@handle_user_message_run s agent ctx true
                  (add_trace [Stdout (lit "Agent: ")]
                     (mkWorld rest (memory w)
                        (trace w ++ [Stdout prompt; Stdin (Some CtrlC);
                                     Stdin (Some (Line s))])))
                  h m' Hrun) as Hturn.
    assert (Hout : turn_outcome h = Raised e).
    { unfold turn_failure in Hfail. unfold turn_outcome.
      destruct (h_stream_error h); [congruence|].
      destruct (h_result h); congruence. }
    rewrite Hout in Hturn.
    pose proof (@loop_body_input_turn agent ctx _ _ _ _ _ Hin Hexit Hturn)
      as Hbody.
    cbn [flow_after_turn closing_of_turn] in Hbody.
    rewrite Hcls, Hexc in Hbody. rewrite add_trace_nil in Hbody.
    unfold add_trace in Hbody. cbn [stdin memory trace] in Hbody.
    repeat rewrite <- app_assoc in Hbody. cbn [app] in Hbody.
    now apply while_true_raise.
Qed.


(** C7, as the code has it: an exception that ends the event stream or is
    raised by the await comes out of the turn handler as it is, after a
    single run of the agent.  The session loop then ends in that pass,
    leaving the rest of the keyboard unread: for an [Exception] other than
    [EOFError] it writes the error notice with the detail of the exception;
    for [EOFError] and [KeyboardInterrupt] it writes the exit notice
    instead; any other [BaseException] leaves the loop uncaught. *)
Theorem failed_turn_ends_session
    (fuel : nat) (agent : Agent) (ctx : Context) (w : World) (s : pystr)
    (rest : list Keyboard) (h : Run) (m' : Mem) (e : Exc) :
  stdin w = Line s :: rest ->
  is_exit_command s = false ->
  agent_run agent s ctx (memory w) = (inr h, m') ->
  turn_failure h = Some e ->
  handle_user_message s agent ctx true w =
    (Raised e,
     mkWorld (stdin w) m' (trace w ++ AgentRun s ctx :: turn_trace true h))
  /\ existsb is_AgentRun (turn_trace true h) = false
  /\ (isinstance_EOF_or_Interrupt e = false ->
      isinstance_Exception e = true ->
      while_true (S fuel) (loop_body agent ctx) w =
      (Returned tt,
       mkWorld rest m'
         (trace w ++ forwarding s ctx ++ turn_trace true h
          ++ [Stdout (NL ++ lit "An error occurred: " ++ exc_str e ++ NL)])))
  /\ (isinstance_EOF_or_Interrupt e = true ->
      while_true (S fuel) (loop_body agent ctx) w =
      (Returned tt,
       mkWorld rest m'
         (trace w ++ forwarding s ctx ++ turn_trace true h
          ++ [Stdout (exit_notice ++ NL)])))
  /\ (isinstance_EOF_or_Interrupt e = false ->
      isinstance_Exception e = false ->
      while_true (S fuel) (loop_body agent ctx) w =
      (Raised e,
       mkWorld rest m'
         (trace w ++ forwarding s ctx ++ turn_trace true h))).
Proof.
  intros Hk Hexit Hrun Hfail.
  pose proof (@while_true_failed_turn fuel _ _ _ _ _ _ _ _ Hk Hexit Hrun Hfail) as Hloop.
  split; [|split; [|split; [|split]]].
  - rewrite (@handle_user_message_run _ _ _ true _ _ _ Hrun). f_equal.
    unfold turn_failure in Hfail. unfold turn_outcome.
    destruct (h_stream_error h); [congruence|].
    destruct (h_result h); congruence.
  - unfold turn_trace. rewrite existsb_app.
    assert (Hev : existsb is_AgentRun
                    (flat_map (trace_of_event true) (h_events h)) = false).
    { induction (h_events h) as [|event evs IH]; [reflexivity|].
      simpl. rewrite existsb_app, IH, orb_false_r.
      destruct event; reflexivity. }
    rewrite Hev. now destruct (h_stream_error h).
  - intros Hcls Hexc. rewrite Hloop. simpl. rewrite Hcls, Hexc.
    unfold error_notice. simpl. rewrite <- ?app_assoc. reflexivity.
  - intros Hcls. rewrite Hloop. simpl. now rewrite Hcls.
  - intros Hcls Hexc. rewrite Hloop. simpl. rewrite Hcls, Hexc.
    now rewrite app_nil_r.
Qed.

(** C8, as the code has it: the session loop writes the exit notice when
    it ends on end-of-input at the prompt, and whenever it ends because
    [input] or the turn handler (the run of the agent, the event stream or
    the await) has raised [EOFError] or [KeyboardInterrupt].  When it ends
    on the line "exit" or "quit" it writes nothing after reading the line,
    and when it ends on another [Exception] out of the turn handler its
    last write is the error notice.  Whether an interrupt at the prompt
    makes [input] raise is left to the runtime. *)
Theorem exit_notice_only_on_eof_or_interrupt
    (fuel : nat) (agent : Agent) (ctx : Context) (w : World) :
  (stdin w = [] ->
   while_true (S fuel) (loop_body agent ctx) w =
   (Returned tt,
    add_trace [Stdout prompt; Stdin None; Stdout (NL ++ lit "Exiting..." ++ NL)]
      w))
  /\ (forall e w',
         input prompt w = (Raised e, w') ->
         while_true (S fuel) (loop_body agent ctx) w =
         (Returned tt,
          add_trace [Stdout (NL ++ lit "Exiting..." ++ NL)] w'))
  /\ (forall s rest,
         stdin w = Line s :: rest ->
         is_exit_command s = true ->
         while_true (S fuel) (loop_body agent ctx) w =
         (Returned tt,
          mkWorld rest (memory w)
            (trace w ++ [Stdout prompt; Stdin (Some (Line s))])))
  /\ (forall s w0 e w',
         input prompt w = (Returned s, w0) ->
         is_exit_command s = false ->
         handle_user_message s agent ctx true
           (add_trace [Stdout (lit "Agent: ")] w0) = (Raised e, w') ->
         isinstance_Exception e = true \/ isinstance_EOF_or_Interrupt e = true ->
         while_true (S fuel) (loop_body agent ctx) w =
         (Returned tt,
          add_trace
            [Stdout (if isinstance_EOF_or_Interrupt e
                     then NL ++ lit "Exiting..." ++ NL
                     else NL ++ lit "An error occurred: " ++ exc_str e ++ NL)]
            w')).
Proof.
  split; [|split; [|split]].
  - intro Hk.
    now rewrite (while_true_break _ _ _ (loop_body_eof agent ctx _ Hk)).
  - intros e w' Hin.
    assert (Hcls : isinstance_EOF_or_Interrupt e = true).
    { destruct (input_shape prompt w) as (o & d & k & Hin' & _ & _ & Ho).
      rewrite Hin in Hin'. injection Hin' as Ho' _. subst o. exact Ho. }
    now rewrite (while_true_break _ _ _
                   (@loop_body_input_raises agent ctx _ _ _ Hin Hcls)).
  - intros s rest Hk Hexit.
    now rewrite (while_true_break _ _ _ (loop_body_exit agent ctx _ Hk Hexit)).
  - intros s w0 e w' Hin Hexit Hturn Hcls.
    pose proof (@loop_body_input_turn agent ctx _ _ _ _ _ Hin Hexit Hturn)
      as Hbody.
    cbn [flow_after_turn closing_of_turn] in Hbody.
    destruct (isinstance_EOF_or_Interrupt e) eqn:Hei.
    + now rewrite (while_true_break _ _ _ Hbody).
    + destruct Hcls as [Hexc|Habs]; [|discriminate].
      rewrite Hexc in Hbody. rewrite (while_true_break _ _ _ Hbody).
      unfold error_notice. rewrite <- ?app_assoc. reflexivity.
Qed.

(* ------------------------------------------------------------------ *)
(** *** Startup *)

Lemma build_agent_fetch_fails (w : World) (e : Exc) (m' : Mem) :
  to_tool_list_async server_toolspec (memory w) = (inl e, m') ->
  build_agent server_command server_args w =
  (Raised e,
   mkWorld (stdin w) m'
     (trace w
      ++ [Stdout (lit "Connecting to MCP server at uv and fetching tools..."
                  ++ NL);
          FetchTools server_toolspec])).
Proof.
  intro Hfetch. unfold build_agent, bind at 1, print. rewrite effect_run.
  unfold bind at 1, to_tool_list. cbn [memory log add_trace].
  fold server_toolspec. rewrite Hfetch.
  unfold set_memory, log, add_trace. cbn [stdin memory trace].
  rewrite <- app_assoc. reflexivity.
Qed.

Lemma build_agent_fetch_succeeds (w : World) (tools : list Tool) (m' : Mem) :
  to_tool_list_async server_toolspec (memory w) = (inr tools, m') ->
  build_agent server_command server_args w =
  (Returned (ReActAgent tools SYSTEM_PROMPT),
   mkWorld (stdin w) m'
     (trace w
      ++ [Stdout (lit "Connecting to MCP server at uv and fetching tools..."
                  ++ NL);
          FetchTools server_toolspec;
          Stdout ([0x2705%N] ++ lit " Successfully fetched "
                  ++ str_of_nat (List.length tools) ++ lit " tools." ++ NL)])).
Proof.
  intro Hfetch. unfold build_agent, bind at 1, print. rewrite effect_run.
  unfold bind at 1, to_tool_list. cbn [memory log add_trace].
  fold server_toolspec. rewrite Hfetch.
  unfold bind, ret, set_memory. rewrite effect_run.
  unfold log, add_trace. cbn [stdin memory trace].
  rewrite <- !app_assoc. reflexivity.
Qed.

(** C1, on the code: when fetching the tools raises an [Exception], the
    handler of [main] looks up the global [mcp_server_url], which no
    statement of the module binds.  The lookup raises [NameError] before
    anything of the diagnostic is written, and that exception leaves
    [main].  The keyboard has not been read. *)
Theorem startup_failure_escapes_as_NameError
    (fuel : nat) (w : World) (e : Exc) (m' : Mem) :
  to_tool_list_async server_toolspec (memory w) = (inl e, m') ->
  isinstance_Exception e = true ->
  main fuel w =
  (Raised (mkExc NameError (lit "name 'mcp_server_url' is not defined")),
   mkWorld (stdin w) m'
     (trace w
      ++ [Stdout (lit "Connecting to MCP server at uv and fetching tools..."
                  ++ NL);
          FetchTools server_toolspec])).
Proof.
  intros Hfetch Hexc.
  unfold main, bind at 1, bootstrap, try_except, bind at 1.
  rewrite (build_agent_fetch_fails _ Hfetch), Hexc. reflexivity.
Qed.

(** [main] comes to an end on every keyboard. *)
Lemma main_total (w : World) :
  fst (main (enough_fuel w) w) <> Diverged.
Proof.
  unfold main, bind at 1, bootstrap, try_except, bind at 1.
  destruct (to_tool_list_async server_toolspec (memory w))
    as [[e|tools] m'] eqn:Hfetch.
  - rewrite (build_agent_fetch_fails _ Hfetch).
    destruct (isinstance_Exception e); discriminate.
  - rewrite (build_agent_fetch_succeeds _ Hfetch).
    unfold ret, repl, bind at 1, new_context. cbn [memory].
    destruct (Context_new (ReActAgent tools SYSTEM_PROMPT) m') as [c m''].
    unfold bind at 1, print. rewrite effect_run.
    unfold bind at 1. rewrite effect_run.
    apply while_true_total. unfold enough_fuel. simpl. lia.
Qed.

End Properties.

(* ================================================================== *)
(** ** Further properties of the code *)

Section SessionProperties.

Context {Ext : Externals}.

(* ------------------------------------------------------------------ *)
(** *** Shortening a tool output *)

(** X1: the shortened form of a tool output has at most 253 characters,
    and its first 250 characters are those of the output. *)
Theorem shorten_bounded_and_prefix_kept (s : pystr) :
  List.length (shorten s) <= 253
  /\ firstn 250 (shorten s) = firstn 250 s.
Proof.
  unfold shorten. destruct (Nat.ltb_spec 250 (List.length s)) as [Hlong|Hshort].
  - split.
    + rewrite length_app, length_firstn.
      change (List.length (lit "...")) with 3. lia.
    + rewrite firstn_app, firstn_firstn, length_firstn.
      replace (250 - Nat.min 250 (List.length s)) with 0 by lia.
      rewrite Nat.min_id. cbn [firstn]. now rewrite app_nil_r.
  - split; [lia|reflexivity].
Qed.

(** X2: shortening is idempotent: a line that was shortened is not cut or
    marked a second time. *)
Theorem shorten_idempotent (s : pystr) :
  shorten (shorten s) = shorten s.
Proof.
  destruct (Nat.lt_ge_cases 250 (List.length s)) as [Hlong|Hshort].
  - rewrite (shorten_long s Hlong). rewrite shorten_long.
    + rewrite firstn_app, firstn_firstn, length_firstn.
      replace (250 - Nat.min 250 (List.length s)) with 0 by lia.
      rewrite Nat.min_id. cbn [firstn]. now rewrite app_nil_r.
    + rewrite length_app, length_firstn.
      change (List.length (lit "...")) with 3. lia.
  - now rewrite !(shorten_short s Hshort).
Qed.

(* ------------------------------------------------------------------ *)
(** *** The exit test on ASCII lines *)

Lemma ascii_lower_inv (a b : N) :
  (97 <= b <= 122)%N ->
  ascii_lower a = b ->
  a = b \/ a = (b - 32)%N.
Proof.
  intros Hb. unfold ascii_lower.
  destruct ((65 <=? a)%N && (a <=? 90)%N); intro H; [right|left]; lia.
Qed.

(** X3: on a line of ASCII characters the exit test holds exactly for the
    four-letter words "exit" and "quit" with each letter in either case. *)
Theorem ascii_exit_commands (s : pystr) :
  forallb is_ascii s = true ->
  (is_exit_command s = true <->
   exists a b c d : N,
     s = [a; b; c; d]
     /\ (((a = 101 \/ a = 69) /\ (b = 120 \/ b = 88)
          /\ (c = 105 \/ c = 73) /\ (d = 116 \/ d = 84))
         \/ ((a = 113 \/ a = 81) /\ (b = 117 \/ b = 85)
             /\ (c = 105 \/ c = 73) /\ (d = 116 \/ d = 84))))%N.
Proof.
  intro Hascii. split.
  - intro Hexit. apply is_exit_command_spec in Hexit.
    unfold str_lower in Hexit. rewrite Hascii in Hexit.
    change (lit "exit") with [101; 120; 105; 116]%N in Hexit.
    change (lit "quit") with [113; 117; 105; 116]%N in Hexit.
    destruct s as [|a [|b [|c [|d [|x s]]]]];
      try (destruct Hexit as [H|H]; discriminate H).
    exists a, b, c, d. split; [reflexivity|].
    cbn [map] in Hexit.
    destruct Hexit as [H|H]; injection H as Ha Hb Hc Hd; [left|right];
      apply ascii_lower_inv in Ha; try lia;
      apply ascii_lower_inv in Hb; try lia;
      apply ascii_lower_inv in Hc; try lia;
      apply ascii_lower_inv in Hd; try lia;
      repeat split; lia.
  - intros (a & b & c & d & Hs & Hletters). subst s.
    destruct Hletters as [(Ha & Hb & Hc & Hd)|(Ha & Hb & Hc & Hd)];
      destruct Ha, Hb, Hc, Hd; subst; reflexivity.
Qed.

(* ------------------------------------------------------------------ *)
(** *** What a turn does and does not do *)

Lemma interactions_app (a b : list Effect) :
  interactions (a ++ b) = interactions a ++ interactions b.
Proof. apply filter_app. Qed.

Lemma interactions_stdout (chunks : list pystr) :
  interactions (map Stdout chunks) = [].
Proof. induction chunks as [|c cs IH]; [reflexivity|exact IH]. Qed.

Lemma interactions_turn_trace (verbose : bool) (h : Run) :
  interactions (turn_trace verbose h) =
  map (fun event => StreamNext (Some event)) (h_events h)
  ++ match h_stream_error h with
     | Some _ => []
     | None => [StreamNext None; AwaitResult]
     end.
Proof.
  unfold turn_trace. rewrite interactions_app. f_equal.
  - induction (h_events h) as [|event rest IH]; [reflexivity|].
    cbn [flat_map map]. unfold trace_of_event at 1.
    change (StreamNext (Some event)
            :: map Stdout (transcript_of_event verbose event))
      with ([StreamNext (Some event)]
            ++ map Stdout (transcript_of_event verbose event)).
    rewrite !interactions_app, interactions_stdout, IH. reflexivity.
  - now destruct (h_stream_error h).
Qed.

Lemma turn_trace_effects (verbose : bool) (h : Run) :
  forallb is_turn_effect (turn_trace verbose h) = true.
Proof.
  unfold turn_trace. rewrite forallb_app. apply andb_true_iff. split.
  - induction (h_events h) as [|event rest IH]; [reflexivity|].
    cbn [flat_map]. rewrite forallb_app, IH, andb_true_r.
    unfold trace_of_event. cbn [forallb].
    induction (transcript_of_event verbose event) as [|c cs IHc];
      [reflexivity|exact IHc].
  - now destruct (h_stream_error h).
Qed.

(** X4: the verbosity flag changes only what is written to the console.
    With it on or off the turn returns or raises the same, leaves the same
    memory and keyboard behind, and runs the agent, steps through the
    stream and awaits the result in the same way. *)
Theorem verbosity_changes_console_only
    (msg : pystr) (agent : Agent) (ctx : Context) (w : World) :
  fst (handle_user_message msg agent ctx true w) =
  fst (handle_user_message msg agent ctx false w)
  /\ memory (snd (handle_user_message msg agent ctx true w)) =
     memory (snd (handle_user_message msg agent ctx false w))
  /\ stdin (snd (handle_user_message msg agent ctx true w)) =
     stdin (snd (handle_user_message msg agent ctx false w))
  /\ interactions (trace (snd (handle_user_message msg agent ctx true w))) =
     interactions (trace (snd (handle_user_message msg agent ctx false w))).
Proof.
  destruct (agent_run agent msg ctx (memory w)) as [[e|h] m'] eqn:Hrun.
  - rewrite !(@handle_user_message_run_raises _ _ _ _ _ _ _ _ Hrun).
    repeat split.
  - rewrite (@handle_user_message_run _ _ _ _ true _ _ _ Hrun).
    rewrite (@handle_user_message_run _ _ _ _ false _ _ _ Hrun).
    cbn [fst snd memory stdin trace]. repeat split.
    change (AgentRun msg ctx :: ?t) with ([AgentRun msg ctx] ++ t).
    now rewrite !interactions_app, !interactions_turn_trace.
Qed.

(** X5: whatever the agent does, a turn comes back, having run the agent
    exactly once and as its first step; after that it only writes to the
    console, steps through the event stream and awaits the result.  It
    never reads the keyboard. *)
Theorem turn_runs_agent_once_and_reads_nothing
    (msg : pystr) (agent : Agent) (ctx : Context) (verbose : bool)
    (w : World) :
  fst (handle_user_message msg agent ctx verbose w) <> Diverged
  /\ stdin (snd (handle_user_message msg agent ctx verbose w)) = stdin w
  /\ exists d : list Effect,
       trace (snd (handle_user_message msg agent ctx verbose w)) =
       trace w ++ AgentRun msg ctx :: d
       /\ forallb is_turn_effect d = true.
Proof.
  destruct (agent_run agent msg ctx (memory w)) as [[e|h] m'] eqn:Hrun.
  - rewrite (@handle_user_message_run_raises _ _ _ _ verbose _ _ _ Hrun).
    cbn [fst snd stdin trace]. split; [discriminate|].
    split; [reflexivity|]. now exists [].
  - rewrite (@handle_user_message_run _ _ _ _ verbose _ _ _ Hrun).
    cbn [fst snd stdin trace]. split; [|split].
    + unfold turn_outcome. destruct (h_stream_error h); [discriminate|].
      destruct (h_result h); discriminate.
    + reflexivity.
    + exists (turn_trace verbose h). split; [reflexivity|].
      apply turn_trace_effects.
Qed.

(** X6: when the event stream breaks off with an exception, the turn
    raises it without ever awaiting the deferred result, even if that
    result is an answer; what the events before the break wrote stays on
    the console. *)
Theorem broken_stream_is_never_awaited
    (msg : pystr) (agent : Agent) (ctx : Context) (verbose : bool)
    (w : World) (h : Run) (m' : Mem) (e : Exc) :
  agent_run agent msg ctx (memory w) = (inr h, m') ->
  h_stream_error h = Some e ->
  fst (handle_user_message msg agent ctx verbose w) = Raised e
  /\ existsb is_AwaitResult
       (trace (snd (handle_user_message msg agent ctx verbose w))) =
     existsb is_AwaitResult (trace w)
  /\ printed (trace (snd (handle_user_message msg agent ctx verbose w))) =
     printed (trace w)
     ++ List.concat (flat_map (transcript_of_event verbose) (h_events h)).
Proof.
  intros Hrun Herr.
  rewrite (@handle_user_message_run _ _ _ _ verbose _ _ _ Hrun).
  unfold turn_outcome, turn_trace. rewrite Herr.
  cbn [fst snd trace]. rewrite app_nil_r. split; [reflexivity|]. split.
  - rewrite existsb_app. cbn [existsb is_AwaitResult]. rewrite orb_false_l.
    assert (Hev : existsb is_AwaitResult
                    (flat_map (trace_of_event verbose) (h_events h)) = false).
    { induction (h_events h) as [|event rest IH]; [reflexivity|].
      cbn [flat_map]. rewrite existsb_app, IH, orb_false_r.
      unfold trace_of_event. cbn [existsb is_AwaitResult].
      induction (transcript_of_event verbose event) as [|c cs IHc];
        [reflexivity|exact IHc]. }
    rewrite Hev. apply orb_false_r.
  - change (AgentRun msg ctx :: ?t) with ([AgentRun msg ctx] ++ t).
    rewrite !printed_app, printed_stream. reflexivity.
Qed.

(* ------------------------------------------------------------------ *)
(** *** Invariants of the session loop *)

Lemma handle_user_message_footprint (msg : pystr) (agent : Agent)
    (ctx : Context) (verbose : bool) (w : World) :
  exists (o : Outcome pystr) (d : list Effect) (m' : Mem),
    handle_user_message msg agent ctx verbose w =
    (o, mkWorld (stdin w) m' (trace w ++ AgentRun msg ctx :: d))
    /\ o <> Diverged
    /\ forallb is_turn_effect d = true.
Proof.
  destruct (agent_run agent msg ctx (memory w)) as [[e|h] m'] eqn:Hrun.
  - exists (Raised e), [], m'. split; [|split; [discriminate|reflexivity]].
    now apply handle_user_message_run_raises.
  - exists (turn_outcome h), (turn_trace verbose h), m'. split; [|split].
    + now apply handle_user_message_run.
    + unfold turn_outcome. destruct (h_stream_error h); [discriminate|].
      destruct (h_result h); discriminate.
    + apply turn_trace_effects.
Qed.

Lemma closing_of_turn_effects (o : Outcome pystr) :
  forallb is_turn_effect (closing_of_turn o) = true.
Proof.
  destruct o as [reply|e|]; cbn [closing_of_turn]; try reflexivity.
  destruct (isinstance_EOF_or_Interrupt e); [reflexivity|].
  destruct (isinstance_Exception e); reflexivity.
Qed.

Lemma turn_effects_facts (ctx : Context) (d : list Effect) :
  forallb is_turn_effect d = true ->
  Forall (keeps_context ctx) d
  /\ utterances d = []
  /\ lines_read d = [].
Proof.
  induction d as [|e d IH]; intro Hd.
  - repeat split. constructor.
  - cbn [forallb] in Hd. apply andb_true_iff in Hd. destruct Hd as [He Hd].
    destruct (IH Hd) as (Hctx & Hu & Hl).
    destruct e; try discriminate He; repeat split;
      try (constructor; [exact I|exact Hctx]); assumption.
Qed.

Lemma reads_keep_context (ctx : Context) (d : list Effect) :
  forallb is_Stdin d = true ->
  Forall (keeps_context ctx) d /\ utterances d = [].
Proof.
  induction d as [|e d IH]; intro Hd.
  - split; [constructor|reflexivity].
  - cbn [forallb] in Hd. apply andb_true_iff in Hd. destruct Hd as [He Hd].
    destruct (IH Hd) as (Hctx & Hu).
    destruct e; try discriminate He. split; [|exact Hu].
    constructor; [exact I|exact Hctx].
Qed.

Lemma loop_body_facts (agent : Agent) (ctx : Context) (w : World) :
  exists (f : Outcome Flow) (d : list Effect) (k : list Keyboard) (m : Mem),
    loop_body agent ctx w = (f, mkWorld k m (trace w ++ d))
    /\ f <> Diverged
    /\ pass_facts ctx d.
Proof.
  unfold pass_facts.
  destruct (input_shape prompt w) as (o & d & k & Hin & Hd & Hl & Ho).
  destruct (reads_keep_context ctx d Hd) as (Hctx & Hu).
  destruct o as [s|e|]; [| |contradiction].
  - destruct (is_exit_command s) eqn:Hexit.
    + exists (Returned Break), (Stdout prompt :: d), k, (memory w).
      rewrite (@loop_body_input_exit _ agent ctx _ _ _ Hin Hexit).
      split; [reflexivity|]. split; [discriminate|]. split.
      * constructor; [exact I|exact Hctx].
      * unfold utterances, lines_read in *. cbn [flat_map app].
        rewrite Hu, Hl. cbn [filter]. now rewrite Hexit.
    + destruct (handle_user_message_footprint s agent ctx true
                  (add_trace [Stdout (lit "Agent: ")]
                     (mkWorld k (memory w) (trace w ++ Stdout prompt :: d))))
        as (o' & d' & m' & Hturn & Hterm & Hd').
      assert (Hturn_effects :
                forallb is_turn_effect (d' ++ closing_of_turn o') = true)
        by now rewrite forallb_app, Hd', closing_of_turn_effects.
      destruct (turn_effects_facts ctx _ Hturn_effects)
        as (Hctx' & Hu' & Hl').
      exists (flow_after_turn o'),
        (Stdout prompt :: d ++ Stdout (lit "Agent: ") :: AgentRun s ctx
         :: d' ++ closing_of_turn o'), k, m'.
      rewrite (@loop_body_input_turn _ agent ctx _ _ _ _ _ Hin Hexit Hturn).
      split; [|split; [|split]].
      * unfold add_trace. cbn [stdin memory trace].
        repeat rewrite <- app_assoc. cbn [app].
        repeat rewrite <- app_assoc. reflexivity.
      * destruct o' as [reply|e|]; cbn [flow_after_turn];
          try discriminate; [|congruence].
        destruct (isinstance_EOF_or_Interrupt e); [discriminate|].
        destruct (isinstance_Exception e); discriminate.
      * constructor; [exact I|]. apply Forall_app. split; [exact Hctx|].
        constructor; [exact I|]. constructor; [reflexivity|exact Hctx'].
      * unfold utterances, lines_read in *. cbn [flat_map app].
        rewrite !flat_map_app. cbn [flat_map app].
        rewrite Hu, Hl, Hu', Hl'. cbn [app filter]. now rewrite Hexit.
  - exists (Returned Break),
      (Stdout prompt :: d ++ [Stdout (exit_notice ++ NL)]), k, (memory w).
    rewrite (@loop_body_input_raises _ agent ctx _ _ _ Hin Ho).
    split; [|split; [|split]].
    + unfold add_trace. cbn [stdin memory trace].
      repeat rewrite <- app_assoc. reflexivity.
    + discriminate.
    + constructor; [exact I|]. apply Forall_app. split; [exact Hctx|].
      repeat constructor.
    + unfold utterances, lines_read in *. cbn [flat_map app].
      rewrite !flat_map_app. cbn [flat_map app].
      now rewrite Hu, Hl.
Qed.

Lemma pass_facts_compose (ctx : Context) (d1 d2 : list Effect) :
  pass_facts ctx d1 ->
  pass_facts ctx d2 ->
  pass_facts ctx (d1 ++ d2).
Proof.
  intros (Hc1 & Hu1) (Hc2 & Hu2). split.
  - apply Forall_app. now split.
  - unfold utterances, lines_read in *.
    now rewrite !flat_map_app, filter_app, Hu1, Hu2.
Qed.

Lemma while_true_facts (fuel : nat) (agent : Agent) (ctx : Context)
    (w : World) :
  exists d : list Effect,
    trace (snd (while_true fuel (loop_body agent ctx) w)) = trace w ++ d
    /\ pass_facts ctx d.
Proof.
  revert w. induction fuel as [|fuel IH]; intro w.
  - exists []. cbn [while_true snd]. rewrite app_nil_r.
    split; [reflexivity|]. split; [constructor|reflexivity].
  - destruct (loop_body_facts agent ctx w)
      as (f & d & k & m & Hbody & Hterm & Hfacts).
    destruct f as [[|]|e|].
    + rewrite (while_true_next _ _ _ Hbody).
      destruct (IH (mkWorld k m (trace w ++ d))) as (d' & Hd' & Hfacts').
      exists (d ++ d'). rewrite Hd'. cbn [trace]. rewrite app_assoc.
      split; [reflexivity|].
      exact (pass_facts_compose Hfacts Hfacts').
    + rewrite (while_true_break _ _ _ Hbody). now exists d.
    + rewrite (while_true_raise _ _ _ Hbody). now exists d.
    + congruence.
Qed.

(** X7: the interactive phase keeps to the one context of the session:
    however long it runs, every run of the agent is on the context it was
    given, no other context is created and the tools are not fetched
    again. *)
Theorem session_keeps_one_context (fuel : nat) (agent : Agent)
    (ctx : Context) (w : World) :
  exists d : list Effect,
    trace (snd (while_true fuel (loop_body agent ctx) w)) = trace w ++ d
    /\ Forall (keeps_context ctx) d.
Proof.
  destruct (while_true_facts fuel agent ctx w) as (d & Hd & Hctx & _).
  now exists d.
Qed.

(** X8: the utterances submitted to the agent during the interactive
    phase are exactly the lines read from the keyboard that fail the exit
    test, in the order read and unchanged; nothing is submitted twice and
    nothing else is submitted. *)
Theorem session_submits_the_lines_read (fuel : nat) (agent : Agent)
    (ctx : Context) (w : World) :
  exists d : list Effect,
    trace (snd (while_true fuel (loop_body agent ctx) w)) = trace w ++ d
    /\ utterances d =
       filter (fun s => negb (is_exit_command s)) (lines_read d).
Proof.
  destruct (while_true_facts fuel agent ctx w) as (d & Hd & _ & Hu).
  now exists d.
Qed.

(* ------------------------------------------------------------------ *)
(** *** Passes that run a turn *)

(** X10: when [agent.run] itself raises on a forwarded line, the session
    loop ends in that pass with the rest of the keyboard unread and
    nothing of a turn on the console: an [Exception] other than [EOFError]
    is answered with the error notice, [EOFError] and [KeyboardInterrupt]
    with the exit notice, and any other exception leaves the loop. *)
Theorem rejected_run_ends_session
    (fuel : nat) (agent : Agent) (ctx : Context) (w : World) (s : pystr)
    (rest : list Keyboard) (e : Exc) (m' : Mem) :
  stdin w = Line s :: rest ->
  is_exit_command s = false ->
  agent_run agent s ctx (memory w) = (inl e, m') ->
  while_true (S fuel) (loop_body agent ctx) w =
  (if isinstance_EOF_or_Interrupt e || isinstance_Exception e
   then Returned tt else Raised e,
   mkWorld rest m'
     (trace w ++ forwarding s ctx
      ++ (if isinstance_EOF_or_Interrupt e
          then [Stdout (NL ++ lit "Exiting..." ++ NL)]
          else if isinstance_Exception e
               then [Stdout (NL ++ lit "An error occurred: " ++ exc_str e
                             ++ NL)]
               else []))).
Proof.
  intros Hk Hexit Hrun.
  pose proof (@handle_user_message_run_raises _ s agent ctx true
                (mkWorld rest (memory w)
                   (trace w ++ [Stdout prompt; Stdin (Some (Line s));
                                Stdout (lit "Agent: ")])) e m' Hrun) as Hturn.
  pose proof (loop_body_turn _ _ _ Hk Hexit Hturn) as Hbody.
  unfold add_trace in Hbody.
  cbn [stdin memory trace flow_after_turn closing_of_turn] in Hbody.
  rewrite <- !app_assoc in Hbody. cbn [app] in Hbody.
  unfold forwarding. cbn [app].
  destruct (isinstance_EOF_or_Interrupt e); cbn [orb].
  - now apply while_true_break.
  - destruct (isinstance_Exception e).
    + apply while_true_break. rewrite Hbody. unfold error_notice.
      cbn [app]. rewrite <- ?app_assoc. reflexivity.
    + now apply while_true_raise.
Qed.

(** X11: after a turn that succeeds, the session loop writes an empty
    line and goes on with the next pass on the rest of the keyboard.  What
    the pass has put on the console is the prompt, the label of the agent,
    the transcript of the events and that empty line: the reply returned
    by the turn handler is not written. *)
Theorem successful_turn_returns_to_prompt
    (fuel : nat) (agent : Agent) (ctx : Context) (w : World) (s : pystr)
    (rest : list Keyboard) (h : Run) (m' : Mem) (answer : Answer) :
  stdin w = Line s :: rest ->
  is_exit_command s = false ->
  agent_run agent s ctx (memory w) = (inr h, m') ->
  h_stream_error h = None ->
  h_result h = inr answer ->
  while_true (S fuel) (loop_body agent ctx) w =
  while_true fuel (loop_body agent ctx)
    (mkWorld rest m'
       (trace w ++ forwarding s ctx ++ turn_trace true h
        ++ [Stdout (NL ++ NL)]))
  /\ printed (forwarding s ctx ++ turn_trace true h ++ [Stdout (NL ++ NL)]) =
     lit "You  : " ++ lit "Agent: "
     ++ List.concat (flat_map (transcript_of_event true) (h_events h))
     ++ NL ++ NL.
Proof.
  intros Hk Hexit Hrun Herr Hres. split.
  - pose proof (@handle_user_message_run _ s agent ctx true
                  (mkWorld rest (memory w)
                     (trace w ++ [Stdout prompt; Stdin (Some (Line s));
                                  Stdout (lit "Agent: ")])) h m' Hrun)
      as Hturn.
    assert (Hout : turn_outcome h = Returned (str_answer answer)).
    { unfold turn_outcome. now rewrite Herr, Hres. }
    rewrite Hout in Hturn.
    pose proof (loop_body_turn _ _ _ Hk Hexit Hturn) as Hbody.
    unfold add_trace in Hbody.
    cbn [stdin memory trace flow_after_turn closing_of_turn] in Hbody.
    rewrite <- !app_assoc in Hbody. cbn [app] in Hbody.
    apply while_true_next. rewrite Hbody. unfold forwarding. cbn [app].
    reflexivity.
  - unfold turn_trace, forwarding. rewrite Herr.
    rewrite !printed_app, printed_stream. cbn [printed].
    rewrite ?app_nil_r, <- ?app_assoc. reflexivity.
Qed.

(* ------------------------------------------------------------------ *)
(** *** Startup and termination of [main] *)

Lemma main_enters_loop (fuel : nat) (w : World) (tools : list Tool)
    (m' m'' : Mem) (c : Context) :
  to_tool_list_async server_toolspec (memory w) = (inr tools, m') ->
  Context_new (ReActAgent tools SYSTEM_PROMPT) m' = (c, m'') ->
  main fuel w =
  while_true fuel (loop_body (ReActAgent tools SYSTEM_PROMPT) c)
    (mkWorld (stdin w) m''
       (trace w
        ++ [Stdout (lit "Connecting to MCP server at uv and fetching tools..."
                    ++ NL);
            FetchTools server_toolspec;
            Stdout ([0x2705%N] ++ lit " Successfully fetched "
                    ++ str_of_nat (List.length tools) ++ lit " tools." ++ NL);
            NewContext c;
            Stdout (NL ++ [0x25B6%N; 0xFE0F%N] ++ lit "  Type 'exit' or Ctrl"
                    ++ [0x2011%N] ++ lit "C to quit." ++ NL);
            Stdout ([0x1F4C4%N]
                    ++ lit " Resume screening assistant initialized. Ask me to analyze a resume from a URL."
                    ++ NL)])).
Proof.
  intros Hfetch Hctx.
  unfold main, bind at 1, bootstrap, try_except, bind at 1.
  rewrite (build_agent_fetch_succeeds _ Hfetch).
  unfold ret, repl, bind at 1, new_context. cbn [memory]. rewrite Hctx.
  unfold bind at 1, print. rewrite effect_run.
  unfold bind at 1. rewrite effect_run.
  unfold add_trace, log, set_memory. cbn [stdin memory trace].
  rewrite <- !app_assoc. reflexivity.
Qed.

(** X12: when the tools can be fetched, [main] announces the connection,
    fetches the tools once, reports how many it got, builds the agent from
    those tools and the system prompt, creates the one context of the
    session, writes the two lines of the banner, and only then enters the
    loop, on that agent and that context, with the keyboard untouched. *)
Theorem main_startup_sequence (fuel : nat) (w : World) (tools : list Tool)
    (m' m'' : Mem) (c : Context) :
  to_tool_list_async server_toolspec (memory w) = (inr tools, m') ->
  Context_new (ReActAgent tools SYSTEM_PROMPT) m' = (c, m'') ->
  exists w0 : World,
    main fuel w =
    while_true fuel (loop_body (ReActAgent tools SYSTEM_PROMPT) c) w0
    /\ stdin w0 = stdin w
    /\ memory w0 = m''
    /\ interactions (trace w0) =
       interactions (trace w) ++ [FetchTools server_toolspec; NewContext c]
    /\ printed (trace w0) =
       printed (trace w)
       ++ lit "Connecting to MCP server at uv and fetching tools..." ++ NL
       ++ [0x2705%N] ++ lit " Successfully fetched "
       ++ str_of_nat (List.length tools) ++ lit " tools." ++ NL
       ++ NL ++ [0x25B6%N; 0xFE0F%N] ++ lit "  Type 'exit' or Ctrl"
       ++ [0x2011%N] ++ lit "C to quit." ++ NL
       ++ [0x1F4C4%N]
       ++ lit " Resume screening assistant initialized. Ask me to analyze a resume from a URL."
       ++ NL.
Proof.
  intros Hfetch Hctx. eexists. split; [|split; [|split; [|split]]].
  - exact (main_enters_loop fuel _ Hfetch Hctx).
  - reflexivity.
  - reflexivity.
  - cbn [trace]. rewrite interactions_app. reflexivity.
  - cbn [trace]. rewrite printed_app. cbn [printed].
    rewrite <- ?app_assoc. rewrite app_nil_r. reflexivity.
Qed.

Lemma main_fetch_fails (fuel : nat) (w : World) (e : Exc) (m' : Mem) :
  to_tool_list_async server_toolspec (memory w) = (inl e, m') ->
  main fuel w =
  (if isinstance_Exception e
   then Raised (mkExc NameError (lit "name 'mcp_server_url' is not defined"))
   else Raised e,
   mkWorld (stdin w) m'
     (trace w
      ++ [Stdout (lit "Connecting to MCP server at uv and fetching tools..."
                  ++ NL);
          FetchTools server_toolspec])).
Proof.
  intro Hfetch.
  unfold main, bind at 1, bootstrap, try_except, bind at 1.
  rewrite (build_agent_fetch_fails _ Hfetch).
  destruct (isinstance_Exception e); reflexivity.
Qed.

(** X13: an exception of startup that is not an [Exception] (an interrupt,
    a cancellation) passes through the handler of [main] unchanged: no
    diagnostic is attempted, and the keyboard is not read. *)
Theorem startup_interrupt_escapes_unchanged
    (fuel : nat) (w : World) (e : Exc) (m' : Mem) :
  to_tool_list_async server_toolspec (memory w) = (inl e, m') ->
  isinstance_Exception e = false ->
  main fuel w =
  (Raised e,
   mkWorld (stdin w) m'
     (trace w
      ++ [Stdout (lit "Connecting to MCP server at uv and fetching tools..."
                  ++ NL);
          FetchTools server_toolspec])).
Proof.
  intros Hfetch Hexc.
  now rewrite (main_fetch_fails fuel _ Hfetch), Hexc.
Qed.

Lemma while_true_fuel_irrelevant (fuel extra : nat) (body : M Flow)
    (w : World) :
  fst (while_true fuel body w) <> Diverged ->
  while_true (fuel + extra) body w = while_true fuel body w.
Proof.
  revert w. induction fuel as [|fuel IH]; intros w Hterm.
  - now contradiction Hterm.
  - cbn [while_true Nat.add] in *. unfold bind in *.
    destruct (body w) as [[[|]|e|] w']; try reflexivity.
    now apply IH.
Qed.

(** X14: [main] comes to an end on every keyboard: with one unit of fuel
    more than the keyboard has items the loop is never cut short, and any
    larger amount gives the same result. *)
Theorem main_ends_on_every_keyboard (fuel : nat) (w : World) :
  enough_fuel w <= fuel ->
  fst (main fuel w) <> Diverged
  /\ main fuel w = main (enough_fuel w) w.
Proof.
  intro Hfuel.
  assert (Hsame : main fuel w = main (enough_fuel w) w).
  { destruct (to_tool_list_async server_toolspec (memory w))
      as [[e|tools] m'] eqn:Hfetch.
    - now rewrite !(main_fetch_fails _ _ Hfetch).
    - destruct (Context_new (ReActAgent tools SYSTEM_PROMPT) m')
        as [c m''] eqn:Hctx.
      rewrite !(main_enters_loop _ _ Hfetch Hctx).
      replace fuel with (enough_fuel w + (fuel - enough_fuel w)) by lia.
      apply while_true_fuel_irrelevant, while_true_total.
      unfold enough_fuel. cbn [stdin]. lia. }
  split; [|exact Hsame]. rewrite Hsame. apply main_total.
Qed.

End SessionProperties.

(* ================================================================== *)
(** ** The properties on the scripted agent *)

Import Scripted.

#[local] Existing Instance externals.

Lemma tool_result_output_truncated_at_250_witness :
  exists shown : pystr,
    @handle_event externals true
      (ToolCallResult (lit "browser_navigate") long_output)
      (world [] (online [])) =
    (Returned tt,
     add_trace [Stdout ([0x2705%N] ++ lit " Tool '" ++ lit "browser_navigate"
                        ++ lit "' returned: " ++ shown ++ NL)]
       (world [] (online [])))
    /\ (List.length long_output <= 250 -> shown = long_output)
    /\ (250 < List.length long_output ->
        shown = firstn 250 long_output ++ lit "..."
        /\ List.length (firstn 250 long_output) = 250).
Proof.
  exact (@tool_result_output_truncated_at_250 externals
           (lit "browser_navigate") long_output (world [] (online []))).
Defined.

Lemma handle_user_message_consumes_then_awaits_witness :
  fst (@handle_user_message externals (lit "screen this") tt tt true
         (world [] (online [good_handler]))) =
    Returned (lit "Good fit.")
  /\ trace (snd (@handle_user_message externals (lit "screen this") tt tt true
                   (world [] (online [good_handler])))) =
     [] ++ [AgentRun (lit "screen this") tt]
     ++ flat_map (trace_of_event true) screening_events
     ++ [StreamNext None; AwaitResult]
  /\ printed (trace (snd (@handle_user_message externals (lit "screen this")
                            tt tt true (world [] (online [good_handler]))))) =
     printed [] ++
     List.concat (flat_map (transcript_of_event true) screening_events).
Proof.
  apply (@handle_user_message_consumes_then_awaits externals
           (lit "screen this") tt tt true (world [] (online [good_handler]))
           screening_events (lit "Good fit.") (online [])).
  reflexivity.
Defined.

Lemma handle_user_message_deterministic_witness :
  fst (@handle_user_message externals (lit "screen this") tt tt true
         (world [] (online [good_handler]))) =
  fst (@handle_user_message externals (lit "screen this") tt tt true
         (@mkWorld externals [CtrlC] (online [good_handler; failing_handler])
            [Stdout (lit "earlier")]))
  /\ exists transcript : pystr,
       printed (trace (snd (@handle_user_message externals (lit "screen this")
                              tt tt true (world [] (online [good_handler]))))) =
       printed [] ++ transcript
       /\ printed (trace (snd (@handle_user_message externals
                                 (lit "screen this") tt tt true
                                 (@mkWorld externals [CtrlC]
                                    (online [good_handler; failing_handler])
                                    [Stdout (lit "earlier")])))) =
          printed [Stdout (lit "earlier")] ++ transcript.
Proof.
  apply (@handle_user_message_deterministic externals (lit "screen this")
           true good_handler tt tt tt tt
           (world [] (online [good_handler]))
           (@mkWorld externals [CtrlC] (online [good_handler; failing_handler])
              [Stdout (lit "earlier")])
           (online []) (online [failing_handler])); reflexivity.
Defined.



Lemma failed_turn_ends_session_witness :
  while_true 1 (loop_body tt tt)
    (world [Line (lit "score it"); Line (lit "again")]
       (online [failing_handler; good_handler])) =
  (Returned tt,
   mkWorld [Line (lit "again")] (online [good_handler])
     ([] ++ forwarding (lit "score it") tt
      ++ turn_trace true failing_handler
      ++ [Stdout (NL ++ lit "An error occurred: " ++ lit "rate limit"
                  ++ NL)])).
Proof.
  refine (proj1 (proj2 (proj2
            (@failed_turn_ends_session externals 0 tt tt
               (world [Line (lit "score it"); Line (lit "again")]
                  (online [failing_handler; good_handler]))
               (lit "score it") [Line (lit "again")] failing_handler
               (online [good_handler])
               (mkExc OtherException (lit "rate limit"))
               eq_refl eq_refl eq_refl eq_refl))) eq_refl eq_refl).
Defined.

(** C7 as stated fails: an [EOFError] that ends the event stream is
    answered with the exit notice, and the detail of the exception is
    nowhere in what the session loop writes. *)
Lemma eof_in_turn_prints_no_error_detail :
  ~ (forall (Ext : Externals) (fuel : nat) (agent : Agent) (ctx : Context)
            (w : World) (s : pystr) (rest : list Keyboard) (h : Run)
            (m' : Mem) (e : Exc),
        stdin w = Line s :: rest ->
        is_exit_command s = false ->
        agent_run agent s ctx (memory w) = (inr h, m') ->
        turn_failure h = Some e ->
        exists d : list Effect,
          while_true (S fuel) (loop_body agent ctx) w =
          (Returned tt, mkWorld rest m' (trace w ++ d))
          /\ contains (exc_str e) (printed d) = true).
Proof.
  intro Hclaim.
  destruct (Hclaim externals 0 tt tt
              (world [Line (lit "score it")] (online [cut_off_handler]))
              (lit "score it") [] cut_off_handler (online [])
              (mkExc EOFError (lit "server closed the pipe"))
              eq_refl eq_refl eq_refl eq_refl) as (d & Hrun & Hdetail).
  vm_compute in Hrun. injection Hrun as Hd. subst d.
  vm_compute in Hdetail. discriminate Hdetail.
Qed.

Lemma exit_notice_only_on_eof_or_interrupt_witness :
  while_true 1 (loop_body tt tt) (world [] (online [])) =
  (Returned tt,
   add_trace [Stdout prompt; Stdin None; Stdout (NL ++ lit "Exiting..." ++ NL)]
     (world [] (online []))).
Proof.
  exact (proj1 (@exit_notice_only_on_eof_or_interrupt externals 0 tt tt
                  (world [] (online []))) eq_refl).
Defined.

(** C8 as stated fails: on the line "exit" the session loop ends without
    writing anything after the prompt; the last thing it does is read the
    line. *)
Lemma exit_command_prints_no_notice :
  ~ (forall (Ext : Externals) (fuel : nat) (agent : Agent) (ctx : Context)
            (w : World) (k : list Keyboard) (m : Mem) (d : list Effect),
        while_true (S fuel) (loop_body agent ctx) w =
        (Returned tt, mkWorld k m (trace w ++ d)) ->
        exists (d0 : list Effect) (notice : pystr),
          d = d0 ++ [Stdout notice]).
Proof.
  intro Hclaim.
  destruct (Hclaim externals 0 tt tt
              (world [Line (lit "exit")] (online []))
              [] (online [])
              [Stdout prompt; Stdin (Some (Line (lit "exit")))]
              eq_refl) as (d0 & notice & Hd).
  apply (f_equal (@rev Effect)) in Hd. rewrite rev_app_distr in Hd.
  simpl in Hd. discriminate Hd.
Qed.

Lemma startup_failure_escapes_as_NameError_witness :
  main 5 (world [Line (lit "hello")] unreachable) =
  (Raised (mkExc NameError (lit "name 'mcp_server_url' is not defined")),
   mkWorld [Line (lit "hello")] unreachable
     ([] ++ [Stdout (lit "Connecting to MCP server at uv and fetching tools..."
                     ++ NL);
             FetchTools server_toolspec])).
Proof.
  exact (@startup_failure_escapes_as_NameError externals 5
           (world [Line (lit "hello")] unreachable)
           (mkExc OtherException (lit "connection refused")) unreachable
           eq_refl eq_refl).
Defined.

Lemma ascii_exit_commands_witness :
  is_exit_command (lit "eXiT") = true <->
  exists a b c d : N,
    lit "eXiT" = [a; b; c; d]
    /\ (((a = 101 \/ a = 69) /\ (b = 120 \/ b = 88)
         /\ (c = 105 \/ c = 73) /\ (d = 116 \/ d = 84))
        \/ ((a = 113 \/ a = 81) /\ (b = 117 \/ b = 85)
            /\ (c = 105 \/ c = 73) /\ (d = 116 \/ d = 84)))%N.
Proof.
  exact (@ascii_exit_commands externals (lit "eXiT") eq_refl).
Defined.

Lemma broken_stream_is_never_awaited_witness :
  fst (handle_user_message (lit "score it") tt tt true
         (world [] (online [cut_off_handler]))) =
    Raised (mkExc EOFError (lit "server closed the pipe"))
  /\ existsb is_AwaitResult
       (trace (snd (handle_user_message (lit "score it") tt tt true
                      (world [] (online [cut_off_handler]))))) =
     existsb is_AwaitResult (trace (world [] (online [cut_off_handler])))
  /\ printed (trace (snd (handle_user_message (lit "score it") tt tt true
                            (world [] (online [cut_off_handler]))))) =
     printed (trace (world [] (online [cut_off_handler])))
     ++ List.concat (flat_map (transcript_of_event true)
                       (h_events cut_off_handler)).
Proof.
  apply (@broken_stream_is_never_awaited externals (lit "score it") tt tt
           true (world [] (online [cut_off_handler])) cut_off_handler
           (online []) (mkExc EOFError (lit "server closed the pipe")));
    reflexivity.
Defined.

Lemma rejected_run_ends_session_witness :
  while_true 1 (loop_body tt tt)
    (world [Line (lit "score it"); Line (lit "again")] rejecting) =
  (Returned tt,
   mkWorld [Line (lit "again")] (mkScript (inr 3) [])
     ([] ++ forwarding (lit "score it") tt
      ++ [Stdout (NL ++ lit "An error occurred: " ++ lit "bad request"
                  ++ NL)])).
Proof.
  exact (@rejected_run_ends_session externals 0 tt tt
           (world [Line (lit "score it"); Line (lit "again")] rejecting)
           (lit "score it") [Line (lit "again")]
           (mkExc OtherException (lit "bad request")) (mkScript (inr 3) [])
           eq_refl eq_refl eq_refl).
Defined.

Lemma successful_turn_returns_to_prompt_witness :
  while_true 2 (loop_body tt tt)
    (world [Line (lit "score it"); Line (lit "exit")] (online [good_handler])) =
  while_true 1 (loop_body tt tt)
    (mkWorld [Line (lit "exit")] (online [])
       ([] ++ forwarding (lit "score it") tt ++ turn_trace true good_handler
        ++ [Stdout (NL ++ NL)]))
  /\ printed (forwarding (lit "score it") tt ++ turn_trace true good_handler
              ++ [Stdout (NL ++ NL)]) =
     lit "You  : " ++ lit "Agent: "
     ++ List.concat (flat_map (transcript_of_event true)
                       (h_events good_handler))
     ++ NL ++ NL.
Proof.
  exact (@successful_turn_returns_to_prompt externals 1 tt tt
           (world [Line (lit "score it"); Line (lit "exit")]
              (online [good_handler]))
           (lit "score it") [Line (lit "exit")] good_handler (online [])
           (lit "Good fit.") eq_refl eq_refl eq_refl eq_refl eq_refl).
Defined.

Lemma main_startup_sequence_witness :
  exists w0 : World,
    main 4 (world [CtrlC] (online [])) =
    while_true 4 (loop_body (ReActAgent (repeat tt 3) SYSTEM_PROMPT) tt) w0
    /\ stdin w0 = [CtrlC]
    /\ memory w0 = online []
    /\ interactions (trace w0) =
       interactions [] ++ [FetchTools server_toolspec; NewContext tt]
    /\ printed (trace w0) =
       printed []
       ++ lit "Connecting to MCP server at uv and fetching tools..." ++ NL
       ++ [0x2705%N] ++ lit " Successfully fetched "
       ++ str_of_nat (List.length (repeat tt 3)) ++ lit " tools." ++ NL
       ++ NL ++ [0x25B6%N; 0xFE0F%N] ++ lit "  Type 'exit' or Ctrl"
       ++ [0x2011%N] ++ lit "C to quit." ++ NL
       ++ [0x1F4C4%N]
       ++ lit " Resume screening assistant initialized. Ask me to analyze a resume from a URL."
       ++ NL.
Proof.
  exact (@main_startup_sequence externals 4 (world [CtrlC] (online []))
           (repeat tt 3) (online []) (online []) tt eq_refl eq_refl).
Defined.

Lemma startup_interrupt_escapes_unchanged_witness :
  main 4 (world [Line (lit "hello")] interrupted_startup) =
  (Raised (mkExc KeyboardInterrupt []),
   mkWorld [Line (lit "hello")] interrupted_startup
     ([] ++ [Stdout (lit "Connecting to MCP server at uv and fetching tools..."
                     ++ NL);
             FetchTools server_toolspec])).
Proof.
  exact (@startup_interrupt_escapes_unchanged externals 4
           (world [Line (lit "hello")] interrupted_startup)
           (mkExc KeyboardInterrupt []) interrupted_startup
           eq_refl eq_refl).
Defined.

Lemma main_ends_on_every_keyboard_witness :
  fst (main 7 (world [Line (lit "score it"); Line (lit "exit")]
                 (online [good_handler]))) <> Diverged
  /\ main 7 (world [Line (lit "score it"); Line (lit "exit")]
               (online [good_handler])) =
     main (enough_fuel (world [Line (lit "score it"); Line (lit "exit")]
                          (online [good_handler])))
       (world [Line (lit "score it"); Line (lit "exit")]
          (online [good_handler])).
Proof.
  apply (@main_ends_on_every_keyboard externals 7
           (world [Line (lit "score it"); Line (lit "exit")]
              (online [good_handler]))).
  unfold enough_fuel. simpl. lia.
Defined.

Lemma first_interrupt_at_prompt_does_not_end_session_witness :
  (exists d : list Effect,
      trace (snd (while_true 1 (loop_body tt tt)
                    (world [CtrlC; Line (lit "hello"); Line (lit "exit")]
                       (online [cancelled_handler])))) =
      []
      ++ [Stdout prompt; Stdin (Some CtrlC); Stdin (Some (Line (lit "hello")));
          Stdout (lit "Agent: "); AgentRun (lit "hello") tt]
      ++ d)
  /\ (forall (h : Run) (m' : Mem) (e : Exc),
         agent_run tt (lit "hello") tt (online [cancelled_handler]) =
           (inr h, m') ->
         turn_failure h = Some e ->
         isinstance_EOF_or_Interrupt e = false ->
         isinstance_Exception e = false ->
         while_true 1 (loop_body tt tt)
           (world [CtrlC; Line (lit "hello"); Line (lit "exit")]
              (online [cancelled_handler])) =
         (Raised e,
          mkWorld [Line (lit "exit")] m'
            ([]
             ++ [Stdout prompt; Stdin (Some CtrlC);
                 Stdin (Some (Line (lit "hello")));
                 Stdout (lit "Agent: "); AgentRun (lit "hello") tt]
             ++ turn_trace true h))).
Proof.
  exact (@first_interrupt_at_prompt_does_not_end_session externals 0 tt tt
           (world [CtrlC; Line (lit "hello"); Line (lit "exit")]
              (online [cancelled_handler]))
           (lit "hello") [Line (lit "exit")]
           eq_refl eq_refl eq_refl eq_refl).
Defined.
